(** * The subsystem lifecycle registry of the Kohi engine

    A shallow embedding of [engine/src/core/systems_manager.c]: the slot table,
    the two-call registration protocol, the two boot passes, the per-frame
    update pass and the shutdown pass, followed by the properties the
    specification states about them.

    Conventions of the embedding.
    - C integers are [Z] ([u64] sizes, [u32] masks and counts, [i32] thread
      counts) or [nat] (table indices); the places where the source can wrap
      or overflow are written out.
    - A [void*] is an address in [Z]; [0] is the null pointer.
    - An automatic variable that was never written holds [Indeterminate].
    - The subsystems themselves are collaborators outside the file: their
      entry points are section parameters acting on an abstract [world].
    - The functions run in a state-and-error monad over a [process]; besides
      the registry and the world, a process carries the log written through
      KERROR/KFATAL/KTRACE and a history of the calls made (a ghost field that
      only the theorems read). *)

From Stdlib Require Import ZArith Lia.
From stdpp Require Import base option list strings.

(** ** Values *)

Definition b8 := bool.
Definition ptr := Z.

(** The content of a C object: never written, or holding a value. *)
Inductive uninit (A : Type) : Type :=
| Indeterminate
| Value (a : A).
Arguments Indeterminate {A}.
Arguments Value {A} a.

(** How a call ends: it returns, it runs into undefined behaviour (an
    out-of-bounds slot, a call through a null function pointer, the use of an
    indeterminate value, signed overflow), or the process is terminated. *)
Inductive outcome (A : Type) : Type :=
| Returns (a : A)
| Undefined
| Fatal.
Arguments Returns {A} a.
Arguments Undefined {A}.
Arguments Fatal {A}.

(** ** The subsystem types

    The enumeration [k_system_type] is declared in [systems_manager.h], which
    is not part of the sources at hand: its enumerators are known by name, the
    integer each one stands for and [K_SYSTEM_TYPE_MAX_COUNT] are parameters
    of the development (see the section below). *)
Inductive k_system_type : Type :=
| K_SYSTEM_TYPE_MEMORY
| K_SYSTEM_TYPE_CONSOLE
| K_SYSTEM_TYPE_KVAR
| K_SYSTEM_TYPE_EVENT
| K_SYSTEM_TYPE_LOGGING
| K_SYSTEM_TYPE_INPUT
| K_SYSTEM_TYPE_PLATFORM
| K_SYSTEM_TYPE_RESOURCE
| K_SYSTEM_TYPE_SHADER
| K_SYSTEM_TYPE_RENDERER
| K_SYSTEM_TYPE_JOB
| K_SYSTEM_TYPE_TEXTURE
| K_SYSTEM_TYPE_FONT
| K_SYSTEM_TYPE_CAMERA
| K_SYSTEM_TYPE_RENDER_VIEW
| K_SYSTEM_TYPE_MATERIAL
| K_SYSTEM_TYPE_GEOMETRY.

#[global] Instance k_system_type_eq_dec : EqDecision k_system_type.
Proof. solve_decision. Defined.

(** ** Subsystem configurations

    Only the fields the registry assigns are modelled; the structures are
    declared in the subsystems' headers. *)

Record platform_system_config := {
  plat_application_name : string;
  plat_x : Z;
  plat_y : Z;
  plat_width : Z;
  plat_height : Z
}.

Record resource_system_config := {
  max_loader_count : Z;
  asset_base_path : string
}.

Record shader_system_config := {
  max_shader_count : Z;
  max_uniform_count : Z;
  max_global_textures : Z;
  max_instance_textures : Z
}.

Record renderer_system_config := {
  renderer_application_name : string
}.

Record job_system_config := {
  max_job_thread_count : Z;
  type_masks : list Z
}.

Record texture_system_config := { max_texture_count : Z }.
Record camera_system_config := { max_camera_count : Z }.
Record render_view_system_config := { max_view_count : Z }.
Record material_system_config := { max_material_count : Z }.
Record geometry_system_config := { max_geometry_count : Z }.

(** ** Logging *)

Inductive log_level : Type := LOG_LEVEL_FATAL | LOG_LEVEL_ERROR | LOG_LEVEL_TRACE.

#[global] Instance log_level_eq_dec : EqDecision log_level.
Proof. solve_decision. Defined.

(** ** The bump allocator *)

Record linear_allocator := {
  total_size : Z;
  allocated : Z;
  memory : ptr
}.

(** Modelled from the spec: [linear_allocator_allocate] lives in
    [memory/linear_allocator.c], which is not part of the sources at hand.
    Section 4.1: the allocator advances an offset cursor into a preallocated
    arena of fixed capacity, never reclaims a block, and fails (fatally for
    the process) when the cumulative allocation would exceed the capacity.
    [None] is that fatal failure. *)
Definition linear_allocator_allocate (a : linear_allocator) (size : Z)
  : option (ptr * linear_allocator) :=
  if (total_size a <? allocated a + size)%Z then None
  else Some ((memory a + allocated a)%Z,
             {| total_size := total_size a;
                allocated := (allocated a + size)%Z;
                memory := memory a |}).

Declare Scope exec_scope.
Delimit Scope exec_scope with exec.

Section Registry.

(** The internal state of the subsystems and of the platform (everything the
    collaborators read and write), the font configuration and the render-view
    descriptor of the application: opaque to the registry. *)
Context {world font_system_config render_view_config : Type}.

(** What the [void* config] argument of a registration points to. *)
Inductive config : Type :=
| config_null
| config_platform (c : platform_system_config)
| config_resource (c : resource_system_config)
| config_shader (c : shader_system_config)
| config_renderer (c : renderer_system_config)
| config_job (c : job_system_config)
| config_texture (c : texture_system_config)
| config_font (c : font_system_config)
| config_camera (c : camera_system_config)
| config_render_view (c : render_view_system_config)
| config_material (c : material_system_config)
| config_geometry (c : geometry_system_config).

Record application_config := {
  name : string;
  start_pos_x : Z;
  start_pos_y : Z;
  start_width : Z;
  start_height : Z;
  font_config : font_system_config;
  render_views : list render_view_config
}.

(** ** The dispatch triple

    [b8 initialize(u64* memory_requirement, void* memory, void* config)]: the
    first argument is what the cell behind [memory_requirement] holds at the
    call, the second component of the result what it holds at the return. *)
Definition PFN_system_initialize : Type :=
  uninit Z -> ptr -> config -> world -> b8 * uninit Z * world.

(** [void shutdown(void* state)] *)
Definition PFN_system_shutdown : Type := uninit ptr -> world -> world.

(** [b8 update(void* state, u32 delta_time)] *)
Definition PFN_system_update : Type := uninit ptr -> Z -> world -> b8 * world.

(** A slot; a null function pointer is [None]. *)
Record k_system := {
  state_size : uninit Z;
  state : uninit ptr;
  initialize : option PFN_system_initialize;
  shutdown : option PFN_system_shutdown;
  update : option PFN_system_update
}.

Record systems_manager_state := {
  systems_allocator : linear_allocator;
  systems : list k_system
}.

(** ** Processes *)

(** The history of calls: a registration that returned (with its result), a
    render-view creation, a shutdown call and an update call through a slot,
    with the arguments passed. *)
Inductive event : Type :=
| ev_register (type : nat) (ok : b8)
| ev_create_view (view : render_view_config) (ok : b8)
| ev_shutdown (type : nat) (st : uninit ptr)
| ev_update (type : nat) (st : uninit ptr) (delta_time : Z) (ok : b8).

Record process := {
  registry : systems_manager_state;
  outside : world;
  log : list (log_level * string);
  history : list event
}.

Definition exec (A : Type) : Type := process -> outcome (A * process).

Definition ret {A} (a : A) : exec A := fun p => Returns (a, p).

Definition bind {A B} (m : exec A) (k : A -> exec B) : exec B :=
  fun p =>
    match m p with
    | Returns (a, p') => k a p'
    | Undefined => Undefined
    | Fatal => Fatal
    end.

Definition undefined {A} : exec A := fun _ => Undefined.
Definition fatal {A} : exec A := fun _ => Fatal.

(** ** Parameters

    The integer value of each enumerator of [k_system_type] and the capacity
    of the slot table ([systems_manager.h]), and the work-type bits of the job
    system ([job_system.h]). *)
Context (type_value : k_system_type -> nat) (K_SYSTEM_TYPE_MAX_COUNT : nat).
Context (JOB_TYPE_GENERAL JOB_TYPE_RESOURCE_LOAD JOB_TYPE_GPU_RESOURCE : Z).

Local Coercion type_value : k_system_type >-> nat.

(** The entry points of the subsystems and of the platform the registry
    calls. *)
Record collaborators := {
  memory_system_shutdown : PFN_system_shutdown;
  console_initialize : PFN_system_initialize;
  console_shutdown : PFN_system_shutdown;
  kvar_initialize : PFN_system_initialize;
  kvar_shutdown : PFN_system_shutdown;
  event_system_initialize : PFN_system_initialize;
  event_system_shutdown : PFN_system_shutdown;
  logging_initialize : PFN_system_initialize;
  logging_shutdown : PFN_system_shutdown;
  input_system_initialize : PFN_system_initialize;
  input_system_shutdown : PFN_system_shutdown;
  platform_system_startup : PFN_system_initialize;
  platform_system_shutdown : PFN_system_shutdown;
  resource_system_initialize : PFN_system_initialize;
  resource_system_shutdown : PFN_system_shutdown;
  shader_system_initialize : PFN_system_initialize;
  shader_system_shutdown : PFN_system_shutdown;
  renderer_system_initialize : PFN_system_initialize;
  renderer_system_shutdown : PFN_system_shutdown;
  job_system_initialize : PFN_system_initialize;
  job_system_shutdown : PFN_system_shutdown;
  job_system_update : PFN_system_update;
  texture_system_initialize : PFN_system_initialize;
  texture_system_shutdown : PFN_system_shutdown;
  font_system_initialize : PFN_system_initialize;
  font_system_shutdown : PFN_system_shutdown;
  camera_system_initialize : PFN_system_initialize;
  camera_system_shutdown : PFN_system_shutdown;
  render_view_system_initialize : PFN_system_initialize;
  render_view_system_shutdown : PFN_system_shutdown;
  material_system_initialize : PFN_system_initialize;
  material_system_shutdown : PFN_system_shutdown;
  geometry_system_initialize : PFN_system_initialize;
  geometry_system_shutdown : PFN_system_shutdown;
  renderer_is_multithreaded : world -> b8;
  platform_get_processor_count : world -> Z;
  render_view_system_create : render_view_config -> world -> b8 * world
}.

Context (ext : collaborators).

(** ** Primitive steps *)

Local Open Scope exec_scope.

Notation "x <- c1 ;; c2" := (bind c1 (fun x => c2))
  (at level 100, c1 at next level, right associativity) : exec_scope.
Notation "c1 ;; c2" := (bind c1 (fun _ => c2))
  (at level 100, right associativity) : exec_scope.

(** A call into a collaborator. *)
Definition extern {A} (f : world -> A * world) : exec A :=
  fun p =>
    let '(a, w) := f (outside p) in
    Returns (a, {| registry := registry p; outside := w;
                   log := log p; history := history p |}).

(** A read of the collaborators' state. *)
Definition query {A} (f : world -> A) : exec A :=
  fun p => Returns (f (outside p), p).

Definition note (e : event) : exec unit :=
  fun p => Returns (tt, {| registry := registry p; outside := outside p;
                           log := log p; history := history p ++ [e] |}).

Definition log_output (level : log_level) (message : string) : exec unit :=
  fun p => Returns (tt, {| registry := registry p; outside := outside p;
                           log := log p ++ [(level, message)];
                           history := history p |}).

(** The logging macros; the format string stands for the message. *)
Definition KFATAL := log_output LOG_LEVEL_FATAL.
Definition KERROR := log_output LOG_LEVEL_ERROR.
Definition KTRACE := log_output LOG_LEVEL_TRACE.

(** The use of the value of an object. *)
Definition value_of {A} (c : uninit A) : exec A :=
  match c with
  | Value a => ret a
  | Indeterminate => undefined
  end.

(** [&state->systems[i]], read. *)
Definition slot (i : nat) : exec k_system :=
  fun p =>
    match systems (registry p) !! i with
    | Some s => Returns (s, p)
    | None => Undefined
    end.

(** [state->systems[i] = sys] *)
Definition set_slot (i : nat) (sys : k_system) : exec unit :=
  fun p =>
    if decide (i < length (systems (registry p))) then
      Returns (tt, {| registry :=
                        {| systems_allocator := systems_allocator (registry p);
                           systems := <[i := sys]> (systems (registry p)) |};
                      outside := outside p; log := log p;
                      history := history p |})
    else Undefined.

(** [linear_allocator_allocate(&state->systems_allocator, size)] *)
Definition allocate (size : Z) : exec ptr :=
  fun p =>
    match linear_allocator_allocate (systems_allocator (registry p)) size with
    | Some (block, a) =>
        Returns (block, {| registry := {| systems_allocator := a;
                                          systems := systems (registry p) |};
                           outside := outside p; log := log p;
                           history := history p |})
    | None => Fatal
    end.

(** ** systems_manager_register *)

(** [return b;] from [systems_manager_register]: the history takes note. *)
Definition registered (type : nat) (b : b8) : exec b8 :=
  note (ev_register type b);; ret b.

Definition systems_manager_register (type : nat)
    (initialize : option PFN_system_initialize)
    (shutdown : option PFN_system_shutdown)
    (update : option PFN_system_update)
    (config : config) : exec b8 :=
  (* k_system sys; sys.initialize = initialize; ... *)
  let sys_state_size : uninit Z := Indeterminate in
  match initialize with
  | Some sys_initialize =>
      r <- extern (sys_initialize sys_state_size 0%Z config);;
      let '(ok, sys_state_size) := r in
      if negb ok then
        KERROR "Failed to register system - initialize call failed.";;
        registered type false
      else
        size <- value_of sys_state_size;;
        block <- allocate size;;
        r <- extern (sys_initialize sys_state_size block config);;
        let '(ok, sys_state_size) := r in
        if negb ok then
          KERROR "Failed to register system - initialize call failed.";;
          registered type false
        else
          set_slot type {| state_size := sys_state_size; state := Value block;
                           initialize := initialize; shutdown := shutdown;
                           update := update |};;
          registered type true
  | None =>
      if decide (type ≠ K_SYSTEM_TYPE_MEMORY) then
        KERROR "Initialize is required for types except K_SYSTEM_TYPE_MEMORY.";;
        registered type false
      else
        set_slot type {| state_size := sys_state_size; state := Indeterminate;
                         initialize := initialize; shutdown := shutdown;
                         update := update |};;
        registered type true
  end.

(** ** systems_manager_update *)

(** The body of the loop at index [i]. *)
Definition update_slot (i : nat) (delta_time : Z) : exec unit :=
  s <- slot i;;
  match update s with
  | Some s_update =>
      ok <- extern (s_update (state s) delta_time);;
      note (ev_update i (state s) delta_time ok);;
      if negb ok then KERROR "System update failed for type: %i" else ret tt
  | None => ret tt
  end.

(** [for (u32 i = from; i < from + n; ++i)] *)
Fixpoint update_loop (n : nat) (from : nat) (delta_time : Z) : exec unit :=
  match n with
  | O => ret tt
  | S n' => update_slot from delta_time;; update_loop n' (S from) delta_time
  end.

Definition systems_manager_update (delta_time : Z) : exec b8 :=
  update_loop K_SYSTEM_TYPE_MAX_COUNT 0 delta_time;;
  ret true.

(** ** shutdown_known_systems *)

(** [state->systems[type].shutdown(state->systems[type].state)] *)
Definition shutdown_slot (type : nat) : exec unit :=
  s <- slot type;;
  match shutdown s with
  | Some s_shutdown =>
      extern (fun w => (tt, s_shutdown (state s) w));;
      note (ev_shutdown type (state s))
  | None => undefined
  end.

Definition shutdown_known_systems : exec unit :=
  shutdown_slot K_SYSTEM_TYPE_CAMERA;;
  shutdown_slot K_SYSTEM_TYPE_FONT;;

  shutdown_slot K_SYSTEM_TYPE_RENDER_VIEW;;
  shutdown_slot K_SYSTEM_TYPE_GEOMETRY;;
  shutdown_slot K_SYSTEM_TYPE_MATERIAL;;
  shutdown_slot K_SYSTEM_TYPE_TEXTURE;;

  shutdown_slot K_SYSTEM_TYPE_JOB;;
  shutdown_slot K_SYSTEM_TYPE_SHADER;;
  shutdown_slot K_SYSTEM_TYPE_RENDERER;;

  shutdown_slot K_SYSTEM_TYPE_RESOURCE;;
  shutdown_slot K_SYSTEM_TYPE_PLATFORM;;
  shutdown_slot K_SYSTEM_TYPE_INPUT;;
  shutdown_slot K_SYSTEM_TYPE_LOGGING;;
  shutdown_slot K_SYSTEM_TYPE_EVENT;;
  shutdown_slot K_SYSTEM_TYPE_KVAR;;
  shutdown_slot K_SYSTEM_TYPE_CONSOLE;;

  shutdown_slot K_SYSTEM_TYPE_MEMORY.

Definition systems_manager_shutdown : exec unit := shutdown_known_systems.

(** ** register_known_systems_pre_boot

    [systems_manager_initialize] creates the arena (64 MiB) and calls this
    function; the arena is part of the registry a process starts with. *)

(** [i32] subtraction; signed overflow is undefined. *)
Definition i32_sub (a b : Z) : exec Z :=
  let r := (a - b)%Z in
  if ((r <? - 2 ^ 31) || (2 ^ 31 - 1 <? r))%Z then undefined else ret r.

(** [a[i] |= v] on an array of masks. *)
Definition or_assign (i : nat) (v : Z) (a : list Z) : list Z :=
  match a !! i with
  | Some x => <[i := Z.lor x v]> a
  | None => a
  end.

(** Lines 190-206: the array [job_thread_types], filled with the general mask
    and then adjusted by the three-way branch on [max_thread_count]. *)
Definition job_thread_types (max_thread_count : Z) (renderer_multithreaded : b8)
  : list Z :=
  let job_thread_types := replicate 15 JOB_TYPE_GENERAL in
  if ((max_thread_count =? 1)%Z || negb renderer_multithreaded) then
    (* Everything on one job thread. *)
    or_assign 0 (Z.lor JOB_TYPE_GPU_RESOURCE JOB_TYPE_RESOURCE_LOAD) job_thread_types
  else if (max_thread_count =? 2)%Z then
    (* Split things between the 2 threads *)
    or_assign 1 JOB_TYPE_RESOURCE_LOAD
      (or_assign 0 JOB_TYPE_GPU_RESOURCE job_thread_types)
  else
    (* Dedicate the first 2 threads to these things, pass off general tasks to
       other threads. *)
    <[1 := JOB_TYPE_RESOURCE_LOAD]> (<[0 := JOB_TYPE_GPU_RESOURCE]> job_thread_types).

(** Lines 170-216 of [register_known_systems_pre_boot], the end of the
    function: the thread count is derived, the masks are set up and the job
    system is registered. *)
Definition register_job_system : exec b8 :=
  renderer_multithreaded <- query (renderer_is_multithreaded ext);;

  (* This is really a core count. Subtract 1 to account for the main thread
     already being in use. *)
  processor_count <- query (platform_get_processor_count ext);;
  thread_count <- i32_sub processor_count 1;;
  if (thread_count <? 1)%Z then
    KFATAL "Error: Platform reported processor count (minus one for main thread) as %i. Need at least one additional thread for the job system.";;
    ret false
  else
  KTRACE "Available threads: %i";;

  (* Cap the thread count. *)
  let max_thread_count := 15%Z in
  thread_count <-
    (if (max_thread_count <? thread_count)%Z then
       KTRACE "Available threads on the system is %i, but will be capped at %i.";;
       ret max_thread_count
     else ret thread_count);;

  (* Initialize the job system. *)
  let job_thread_types := job_thread_types max_thread_count renderer_multithreaded in
  let job_sys_config :=
    {| max_job_thread_count := thread_count; type_masks := job_thread_types |} in
  ok <- systems_manager_register K_SYSTEM_TYPE_JOB
          (Some (job_system_initialize ext)) (Some (job_system_shutdown ext))
          (Some (job_system_update ext)) (config_job job_sys_config);;
  if negb ok then KERROR "Failed to register job system.";; ret false else

  ret true.

Definition register_known_systems_pre_boot (app_config : application_config)
  : exec b8 :=
  (* Memory *)
  ok <- systems_manager_register K_SYSTEM_TYPE_MEMORY
          None (Some (memory_system_shutdown ext)) None config_null;;
  if negb ok then KERROR "Failed to register memory system.";; ret false else
  (* Console *)
  ok <- systems_manager_register K_SYSTEM_TYPE_CONSOLE
          (Some (console_initialize ext)) (Some (console_shutdown ext)) None
          config_null;;
  if negb ok then KERROR "Failed to register console system.";; ret false else
  (* KVars *)
  ok <- systems_manager_register K_SYSTEM_TYPE_KVAR
          (Some (kvar_initialize ext)) (Some (kvar_shutdown ext)) None
          config_null;;
  if negb ok then KERROR "Failed to register KVar system.";; ret false else
  (* Events *)
  ok <- systems_manager_register K_SYSTEM_TYPE_EVENT
          (Some (event_system_initialize ext)) (Some (event_system_shutdown ext))
          None config_null;;
  if negb ok then KERROR "Failed to register event system.";; ret false else
  (* Logging *)
  ok <- systems_manager_register K_SYSTEM_TYPE_LOGGING
          (Some (logging_initialize ext)) (Some (logging_shutdown ext)) None
          config_null;;
  if negb ok then KERROR "Failed to register logging system.";; ret false else
  (* Input *)
  ok <- systems_manager_register K_SYSTEM_TYPE_INPUT
          (Some (input_system_initialize ext)) (Some (input_system_shutdown ext))
          None config_null;;
  if negb ok then KERROR "Failed to register input system.";; ret false else
  (* Platform *)
  let plat_config :=
    {| plat_application_name := name app_config;
       plat_x := start_pos_x app_config;
       plat_y := start_pos_y app_config;
       plat_width := start_width app_config;
       plat_height := start_height app_config |} in
  ok <- systems_manager_register K_SYSTEM_TYPE_PLATFORM
          (Some (platform_system_startup ext))
          (Some (platform_system_shutdown ext)) None
          (config_platform plat_config);;
  if negb ok then KERROR "Failed to register platform system.";; ret false else
  (* Resource system. *)
  let resource_sys_config :=
    {| asset_base_path := "../assets"; max_loader_count := 32 |} in
  ok <- systems_manager_register K_SYSTEM_TYPE_RESOURCE
          (Some (resource_system_initialize ext))
          (Some (resource_system_shutdown ext)) None
          (config_resource resource_sys_config);;
  if negb ok then KERROR "Failed to register resource system.";; ret false else
  (* Shader system *)
  let shader_sys_config :=
    {| max_shader_count := 1024; max_uniform_count := 128;
       max_global_textures := 31; max_instance_textures := 31 |} in
  ok <- systems_manager_register K_SYSTEM_TYPE_SHADER
          (Some (shader_system_initialize ext))
          (Some (shader_system_shutdown ext)) None
          (config_shader shader_sys_config);;
  if negb ok then KERROR "Failed to register shader system.";; ret false else
  (* Renderer system *)
  let renderer_sys_config :=
    {| renderer_application_name := name app_config |} in
  ok <- systems_manager_register K_SYSTEM_TYPE_RENDERER
          (Some (renderer_system_initialize ext))
          (Some (renderer_system_shutdown ext)) None
          (config_renderer renderer_sys_config);;
  if negb ok then KERROR "Failed to register renderer system.";; ret false else

  (* The job system: lines 170-216, below. *)
  register_job_system.

(** ** register_known_systems_post_boot *)

(** [u32 view_count = darray_length(app_config->render_views)]: the length,
    converted to 32 bits. *)
Definition view_count (app_config : application_config) : nat :=
  Z.to_nat (Z.of_nat (length (render_views app_config)) mod 2 ^ 32)%Z.

(** The loop over the render views, from the first of [views] on; [false] is
    the [return false] taken inside the loop. *)
Fixpoint create_render_views (views : list render_view_config) : exec b8 :=
  match views with
  | [] => ret true
  | view :: views' =>
      ok <- extern (render_view_system_create ext view);;
      note (ev_create_view view ok);;
      if negb ok then
        KFATAL "Failed to create view '%s'. Aborting application.";;
        ret false
      else create_render_views views'
  end.

Definition register_known_systems_post_boot (app_config : application_config)
  : exec b8 :=
  (* Texture system. *)
  let texture_sys_config := {| max_texture_count := 65536 |} in
  ok <- systems_manager_register K_SYSTEM_TYPE_TEXTURE
          (Some (texture_system_initialize ext))
          (Some (texture_system_shutdown ext)) None
          (config_texture texture_sys_config);;
  if negb ok then KERROR "Failed to register texture system.";; ret false else
  (* Font system. *)
  ok <- systems_manager_register K_SYSTEM_TYPE_FONT
          (Some (font_system_initialize ext)) (Some (font_system_shutdown ext))
          None (config_font (font_config app_config));;
  if negb ok then KERROR "Failed to register font system.";; ret false else
  (* Camera *)
  let camera_sys_config := {| max_camera_count := 61 |} in
  ok <- systems_manager_register K_SYSTEM_TYPE_CAMERA
          (Some (camera_system_initialize ext))
          (Some (camera_system_shutdown ext)) None
          (config_camera camera_sys_config);;
  if negb ok then KERROR "Failed to register camera system.";; ret false else
  let render_view_sys_config := {| max_view_count := 251 |} in
  ok <- systems_manager_register K_SYSTEM_TYPE_RENDER_VIEW
          (Some (render_view_system_initialize ext))
          (Some (render_view_system_shutdown ext)) None
          (config_render_view render_view_sys_config);;
  if negb ok then KERROR "Failed to register render view system.";; ret false else
  (* Load render views from app config. *)
  ok <- create_render_views (take (view_count app_config) (render_views app_config));;
  if negb ok then ret false else
  (* Material system. *)
  let material_sys_config := {| max_material_count := 4096 |} in
  ok <- systems_manager_register K_SYSTEM_TYPE_MATERIAL
          (Some (material_system_initialize ext))
          (Some (material_system_shutdown ext)) None
          (config_material material_sys_config);;
  if negb ok then KERROR "Failed to register material system.";; ret false else
  (* Geometry system. *)
  let geometry_sys_config := {| max_geometry_count := 4096 |} in
  ok <- systems_manager_register K_SYSTEM_TYPE_GEOMETRY
          (Some (geometry_system_initialize ext))
          (Some (geometry_system_shutdown ext)) None
          (config_geometry geometry_sys_config);;
  if negb ok then KERROR "Failed to register geometry system.";; ret false else

  ret true.

Definition systems_manager_post_boot_initialize := register_known_systems_post_boot.

(** * The vocabulary of the properties *)

(** The slot a successful registration stores. *)
Definition registered_system (size : uninit Z) (block : uninit ptr)
    (initialize : option PFN_system_initialize)
    (shutdown : option PFN_system_shutdown)
    (update : option PFN_system_update) : k_system :=
  {| state_size := size; state := block; initialize := initialize;
     shutdown := shutdown; update := update |}.

(** The update calls a pass is to make over [table], for the indices
    [from, from + n): one per slot that has an updater, in index order, on
    the slot's state and with the elapsed time. *)
Definition update_calls (table : list k_system) (from n : nat) (delta_time : Z)
  : list (nat * uninit ptr * Z) :=
  omap (fun i => match table !! i with
                 | Some s => match update s with
                             | Some _ => Some (i, state s, delta_time)
                             | None => None
                             end
                 | None => None
                 end) (seq from n).

(** An entry of the history is the update call [c], with some result. *)
Definition is_update_call (e : event) (c : nat * uninit ptr * Z) : Prop :=
  exists ok, e = ev_update c.1.1 c.1.2 c.2 ok.

Definition update_failed (e : event) : bool :=
  match e with
  | ev_update _ _ _ false => true
  | _ => false
  end.

Definition update_error : log_level * string :=
  (LOG_LEVEL_ERROR, "System update failed for type: %i"%string).

(** The errors a pass logs: one for each failed update of [evs]. *)
Definition update_errors (evs : list event) : list (log_level * string) :=
  (fun _ => update_error) <$> filter (fun e => update_failed e = true) evs.

(** The order of section 4.5. *)
Definition shutdown_order : list k_system_type :=
  [ K_SYSTEM_TYPE_CAMERA; K_SYSTEM_TYPE_FONT; K_SYSTEM_TYPE_RENDER_VIEW;
    K_SYSTEM_TYPE_GEOMETRY; K_SYSTEM_TYPE_MATERIAL; K_SYSTEM_TYPE_TEXTURE;
    K_SYSTEM_TYPE_JOB; K_SYSTEM_TYPE_SHADER; K_SYSTEM_TYPE_RENDERER;
    K_SYSTEM_TYPE_RESOURCE; K_SYSTEM_TYPE_PLATFORM; K_SYSTEM_TYPE_INPUT;
    K_SYSTEM_TYPE_LOGGING; K_SYSTEM_TYPE_EVENT; K_SYSTEM_TYPE_KVAR;
    K_SYSTEM_TYPE_CONSOLE; K_SYSTEM_TYPE_MEMORY ].

(** The state stored in slot [i] of the table of [p]. *)
Definition slot_state (p : process) (i : nat) : uninit ptr :=
  default Indeterminate (state <$> systems (registry p) !! i).

(** The effect on the world of the shutdown function of slot [i] of the
    table of [p], applied to the state of that slot. *)
Definition slot_shutdown (p : process) (i : nat) (w : world) : world :=
  match systems (registry p) !! i with
  | Some s => match shutdown s with
              | Some f => f (state s) w
              | None => w
              end
  | None => w
  end.

(** A run of shutdown calls over the slots [ts], followed by [k]. *)
Fixpoint then_shutdown (ts : list k_system_type) (k : exec unit) : exec unit :=
  match ts with
  | [] => k
  | t :: ts' => shutdown_slot t;; then_shutdown ts' k
  end.

(** What the specification states of a shutdown pass from [p], for a count
    [n] of slots: the pass returns, having called the shutdown function of
    each slot of [shutdown_order] on that slot's state, in that order, which
    names [n] slots, every known slot among them and none twice. *)
Definition shutdown_pass_calls (n : nat) (p : process) : Prop :=
  exists p',
    systems_manager_shutdown p = Returns (tt, p') /\
    history p' = history p ++
      ((fun t : k_system_type => ev_shutdown t (slot_state p t)) <$> shutdown_order) /\
    outside p' = foldl (fun w (t : k_system_type) => slot_shutdown p t w)
                   (outside p) shutdown_order /\
    length shutdown_order = n /\
    (forall t : k_system_type, t ∈ shutdown_order) /\
    NoDup (type_value <$> shutdown_order).

(** The registration of the job system with a given configuration, as the
    end of [register_job_system] performs it. *)
Definition register_job_system_with (job_sys_config : job_system_config) : exec b8 :=
  ok <- systems_manager_register K_SYSTEM_TYPE_JOB
          (Some (job_system_initialize ext)) (Some (job_system_shutdown ext))
          (Some (job_system_update ext)) (config_job job_sys_config);;
  if negb ok then KERROR "Failed to register job system.";; ret false else
  ret true.

(** A step of a boot pass, and the entry it leaves in the history. *)
Inductive boot_step : Type :=
| step_register (t : k_system_type)
| step_create_view (view : render_view_config).

Definition step_event (s : boot_step) (ok : b8) : event :=
  match s with
  | step_register t => ev_register t ok
  | step_create_view view => ev_create_view view ok
  end.

(** [boot_trace steps b evs]: [evs] is the history of a pass over [steps]
    that takes the steps in order, stops at the first one that fails, and
    ends with [b], true when no step failed. *)
Inductive boot_trace : list boot_step -> b8 -> list event -> Prop :=
| boot_trace_done : boot_trace [] true []
| boot_trace_failed s steps : boot_trace (s :: steps) false [step_event s false]
| boot_trace_next s steps b evs :
    boot_trace steps b evs -> boot_trace (s :: steps) b (step_event s true :: evs).

(** The steps of the two passes. *)
Definition pre_boot_order : list k_system_type :=
  [ K_SYSTEM_TYPE_MEMORY; K_SYSTEM_TYPE_CONSOLE; K_SYSTEM_TYPE_KVAR;
    K_SYSTEM_TYPE_EVENT; K_SYSTEM_TYPE_LOGGING; K_SYSTEM_TYPE_INPUT;
    K_SYSTEM_TYPE_PLATFORM; K_SYSTEM_TYPE_RESOURCE; K_SYSTEM_TYPE_SHADER;
    K_SYSTEM_TYPE_RENDERER; K_SYSTEM_TYPE_JOB ].


(** The dispatch triple each boot pass hands to [systems_manager_register]
    for a known type (lines 95-211 and 247-294). *)
Definition known_initialize (t : k_system_type) : option PFN_system_initialize :=
  match t with
  | K_SYSTEM_TYPE_MEMORY => None
  | K_SYSTEM_TYPE_CONSOLE => Some (console_initialize ext)
  | K_SYSTEM_TYPE_KVAR => Some (kvar_initialize ext)
  | K_SYSTEM_TYPE_EVENT => Some (event_system_initialize ext)
  | K_SYSTEM_TYPE_LOGGING => Some (logging_initialize ext)
  | K_SYSTEM_TYPE_INPUT => Some (input_system_initialize ext)
  | K_SYSTEM_TYPE_PLATFORM => Some (platform_system_startup ext)
  | K_SYSTEM_TYPE_RESOURCE => Some (resource_system_initialize ext)
  | K_SYSTEM_TYPE_SHADER => Some (shader_system_initialize ext)
  | K_SYSTEM_TYPE_RENDERER => Some (renderer_system_initialize ext)
  | K_SYSTEM_TYPE_JOB => Some (job_system_initialize ext)
  | K_SYSTEM_TYPE_TEXTURE => Some (texture_system_initialize ext)
  | K_SYSTEM_TYPE_FONT => Some (font_system_initialize ext)
  | K_SYSTEM_TYPE_CAMERA => Some (camera_system_initialize ext)
  | K_SYSTEM_TYPE_RENDER_VIEW => Some (render_view_system_initialize ext)
  | K_SYSTEM_TYPE_MATERIAL => Some (material_system_initialize ext)
  | K_SYSTEM_TYPE_GEOMETRY => Some (geometry_system_initialize ext)
  end.

Definition known_shutdown (t : k_system_type) : PFN_system_shutdown :=
  match t with
  | K_SYSTEM_TYPE_MEMORY => memory_system_shutdown ext
  | K_SYSTEM_TYPE_CONSOLE => console_shutdown ext
  | K_SYSTEM_TYPE_KVAR => kvar_shutdown ext
  | K_SYSTEM_TYPE_EVENT => event_system_shutdown ext
  | K_SYSTEM_TYPE_LOGGING => logging_shutdown ext
  | K_SYSTEM_TYPE_INPUT => input_system_shutdown ext
  | K_SYSTEM_TYPE_PLATFORM => platform_system_shutdown ext
  | K_SYSTEM_TYPE_RESOURCE => resource_system_shutdown ext
  | K_SYSTEM_TYPE_SHADER => shader_system_shutdown ext
  | K_SYSTEM_TYPE_RENDERER => renderer_system_shutdown ext
  | K_SYSTEM_TYPE_JOB => job_system_shutdown ext
  | K_SYSTEM_TYPE_TEXTURE => texture_system_shutdown ext
  | K_SYSTEM_TYPE_FONT => font_system_shutdown ext
  | K_SYSTEM_TYPE_CAMERA => camera_system_shutdown ext
  | K_SYSTEM_TYPE_RENDER_VIEW => render_view_system_shutdown ext
  | K_SYSTEM_TYPE_MATERIAL => material_system_shutdown ext
  | K_SYSTEM_TYPE_GEOMETRY => geometry_system_shutdown ext
  end.

Definition known_update (t : k_system_type) : option PFN_system_update :=
  match t with
  | K_SYSTEM_TYPE_JOB => Some (job_system_update ext)
  | _ => None
  end.

(** A log entry that reports no failure. *)
Definition is_trace (entry : log_level * string) : Prop :=
  entry.1 = LOG_LEVEL_TRACE.

(** The bits of the work type [type] are all in [mask]. *)
Definition mask_includes (mask type : Z) : Prop := Z.lor mask type = mask.

(** No slot of [table] below [n] has an updater. *)
Definition no_updater_below (n : nat) (table : list k_system) : Prop :=
  forall i, i < n -> exists s, table !! i = Some s /\ update s = None.

(** Every type of [ts] has its slot in [table], holding the dispatch triple
    the boot passes register for it. *)
Definition holds_known (ts : list k_system_type) (table : list k_system) : Prop :=
  forall t, t ∈ ts -> exists size block,
    table !! type_value t =
    Some (registered_system size block (known_initialize t)
            (Some (known_shutdown t)) (known_update t)).

(** The types the post-boot pass registers, in its order. *)
Definition post_boot_order : list k_system_type :=
  [ K_SYSTEM_TYPE_TEXTURE; K_SYSTEM_TYPE_FONT; K_SYSTEM_TYPE_CAMERA;
    K_SYSTEM_TYPE_RENDER_VIEW; K_SYSTEM_TYPE_MATERIAL; K_SYSTEM_TYPE_GEOMETRY ].

End Registry.

(** * A concrete engine

    An instance of the parameters, on which the properties below are run: the
    world is the number of logical processors the platform reports, the
    enumerators are numbered in the order of their declaration, the table has
    32 slots and the work types are three distinct bits. *)

Definition sample_type_value (t : k_system_type) : nat :=
  match t with
  | K_SYSTEM_TYPE_MEMORY => 0
  | K_SYSTEM_TYPE_CONSOLE => 1
  | K_SYSTEM_TYPE_KVAR => 2
  | K_SYSTEM_TYPE_EVENT => 3
  | K_SYSTEM_TYPE_LOGGING => 4
  | K_SYSTEM_TYPE_INPUT => 5
  | K_SYSTEM_TYPE_PLATFORM => 6
  | K_SYSTEM_TYPE_RESOURCE => 7
  | K_SYSTEM_TYPE_SHADER => 8
  | K_SYSTEM_TYPE_RENDERER => 9
  | K_SYSTEM_TYPE_JOB => 10
  | K_SYSTEM_TYPE_TEXTURE => 11
  | K_SYSTEM_TYPE_FONT => 12
  | K_SYSTEM_TYPE_CAMERA => 13
  | K_SYSTEM_TYPE_RENDER_VIEW => 14
  | K_SYSTEM_TYPE_MATERIAL => 15
  | K_SYSTEM_TYPE_GEOMETRY => 16
  end.

Definition SAMPLE_MAX_COUNT : nat := 32.
Definition SAMPLE_JOB_TYPE_GENERAL : Z := 2.
Definition SAMPLE_JOB_TYPE_RESOURCE_LOAD : Z := 4.
Definition SAMPLE_JOB_TYPE_GPU_RESOURCE : Z := 8.

Definition sample_config : Type := @config unit.
Definition sample_initialize : Type := @PFN_system_initialize Z unit.
Definition sample_system : Type := @k_system Z unit.
Definition sample_process : Type := @process Z unit string.

(** An initializer that asks for [n] bytes and succeeds, one whose sizing call
    fails, one whose second call fails, and one that asks for 16 bytes and
    reports 32 once it is given the block. *)
Definition sized_initialize (n : Z) : sample_initialize :=
  fun _ _ _ w => (true, Value n, w).
Definition refusing_initialize : sample_initialize :=
  fun size _ _ w => (false, size, w).
Definition half_initialize : sample_initialize :=
  fun _ memory _ w => ((memory =? 0)%Z, Value 16%Z, w).
Definition growing_initialize : sample_initialize :=
  fun _ memory _ w => (true, Value (if (memory =? 0)%Z then 16 else 32)%Z, w).

Definition quiet_shutdown : @PFN_system_shutdown Z := fun _ w => w.
Definition good_update : @PFN_system_update Z := fun _ _ w => (true, w).
Definition bad_update : @PFN_system_update Z := fun _ _ w => (false, w).

Definition sample_ext : @collaborators Z unit string :=
  {| memory_system_shutdown := quiet_shutdown;
     console_initialize := sized_initialize 64;
     console_shutdown := quiet_shutdown;
     kvar_initialize := sized_initialize 64;
     kvar_shutdown := quiet_shutdown;
     event_system_initialize := sized_initialize 64;
     event_system_shutdown := quiet_shutdown;
     logging_initialize := sized_initialize 64;
     logging_shutdown := quiet_shutdown;
     input_system_initialize := sized_initialize 64;
     input_system_shutdown := quiet_shutdown;
     platform_system_startup := sized_initialize 64;
     platform_system_shutdown := quiet_shutdown;
     resource_system_initialize := sized_initialize 64;
     resource_system_shutdown := quiet_shutdown;
     shader_system_initialize := sized_initialize 64;
     shader_system_shutdown := quiet_shutdown;
     renderer_system_initialize := sized_initialize 64;
     renderer_system_shutdown := quiet_shutdown;
     job_system_initialize := sized_initialize 64;
     job_system_shutdown := quiet_shutdown;
     job_system_update := good_update;
     texture_system_initialize := sized_initialize 64;
     texture_system_shutdown := quiet_shutdown;
     font_system_initialize := sized_initialize 64;
     font_system_shutdown := quiet_shutdown;
     camera_system_initialize := sized_initialize 64;
     camera_system_shutdown := quiet_shutdown;
     render_view_system_initialize := sized_initialize 64;
     render_view_system_shutdown := quiet_shutdown;
     material_system_initialize := sized_initialize 64;
     material_system_shutdown := quiet_shutdown;
     geometry_system_initialize := sized_initialize 64;
     geometry_system_shutdown := quiet_shutdown;
     renderer_is_multithreaded := fun _ => true;
     platform_get_processor_count := fun w => w;
     render_view_system_create := fun _ w => (true, w) |}.

Definition sample_app_config : @application_config unit string :=
  {| name := "sample"; start_pos_x := 100%Z; start_pos_y := 100%Z;
     start_width := 1280%Z; start_height := 720%Z; font_config := tt;
     render_views := ["world"; "ui"]%string |}.

(** A zeroed slot and a process at its start: an empty table, an arena with
    nothing taken from it, [processors] logical processors. *)
Definition zeroed_slot : sample_system :=
  {| state_size := Value 0%Z; state := Value 0%Z; initialize := None;
     shutdown := None; update := None |}.

Definition sample_start (processors : Z) : sample_process :=
  {| registry :=
       {| systems_allocator :=
            {| total_size := 64 * 1024 * 1024; allocated := 0;
               memory := 4096 |}%Z;
          systems := replicate SAMPLE_MAX_COUNT zeroed_slot |};
     outside := processors; log := []; history := [] |}.

(** The process a run ends in ([p] itself when it does not return). *)
Definition after {A} (run : @exec Z unit string A) (p : sample_process)
  : sample_process :=
  match run p with
  | Returns (_, p') => p'
  | _ => p
  end.

Definition sample_register (type : nat) (init : sample_initialize)
    (upd : option (@PFN_system_update Z)) : @exec Z unit string b8 :=
  systems_manager_register sample_type_value type (Some init)
    (Some quiet_shutdown) upd config_null.

(** The console registered once, and the engine after the pre-boot pass and
    after both passes, on eight processors. *)
Definition sample_once : sample_process :=
  after (sample_register 1 (sized_initialize 64) None) (sample_start 8).

Definition sample_pre_booted : sample_process :=
  after (register_known_systems_pre_boot sample_type_value
           SAMPLE_JOB_TYPE_GENERAL SAMPLE_JOB_TYPE_RESOURCE_LOAD
           SAMPLE_JOB_TYPE_GPU_RESOURCE sample_ext sample_app_config)
    (sample_start 8).

Definition sample_booted : sample_process :=
  after (register_known_systems_post_boot sample_type_value sample_ext
           sample_app_config)
    sample_pre_booted.

(** A table with two updaters, the first of which fails. *)
Definition sample_updating : sample_process :=
  after (sample_register 20 (sized_initialize 8) (Some good_update))
    (after (sample_register 3 (sized_initialize 8) (Some bad_update))
       (sample_start 8)).

(** The engine after a pre-boot pass on one processor, which fails. *)
Definition sample_failed_boot : sample_process :=
  after (register_known_systems_pre_boot sample_type_value
           SAMPLE_JOB_TYPE_GENERAL SAMPLE_JOB_TYPE_RESOURCE_LOAD
           SAMPLE_JOB_TYPE_GPU_RESOURCE sample_ext sample_app_config)
    (sample_start 1).

(** The sample collaborators on a platform that always reports one logical
    processor. *)
Definition single_core_ext : @collaborators Z unit string :=
  {| memory_system_shutdown := quiet_shutdown;
     console_initialize := sized_initialize 64;
     console_shutdown := quiet_shutdown;
     kvar_initialize := sized_initialize 64;
     kvar_shutdown := quiet_shutdown;
     event_system_initialize := sized_initialize 64;
     event_system_shutdown := quiet_shutdown;
     logging_initialize := sized_initialize 64;
     logging_shutdown := quiet_shutdown;
     input_system_initialize := sized_initialize 64;
     input_system_shutdown := quiet_shutdown;
     platform_system_startup := sized_initialize 64;
     platform_system_shutdown := quiet_shutdown;
     resource_system_initialize := sized_initialize 64;
     resource_system_shutdown := quiet_shutdown;
     shader_system_initialize := sized_initialize 64;
     shader_system_shutdown := quiet_shutdown;
     renderer_system_initialize := sized_initialize 64;
     renderer_system_shutdown := quiet_shutdown;
     job_system_initialize := sized_initialize 64;
     job_system_shutdown := quiet_shutdown;
     job_system_update := good_update;
     texture_system_initialize := sized_initialize 64;
     texture_system_shutdown := quiet_shutdown;
     font_system_initialize := sized_initialize 64;
     font_system_shutdown := quiet_shutdown;
     camera_system_initialize := sized_initialize 64;
     camera_system_shutdown := quiet_shutdown;
     render_view_system_initialize := sized_initialize 64;
     render_view_system_shutdown := quiet_shutdown;
     material_system_initialize := sized_initialize 64;
     material_system_shutdown := quiet_shutdown;
     geometry_system_initialize := sized_initialize 64;
     geometry_system_shutdown := quiet_shutdown;
     renderer_is_multithreaded := fun _ => true;
     platform_get_processor_count := fun _ => 1%Z;
     render_view_system_create := fun _ w => (true, w) |}.

Definition single_core_boot : sample_process :=
  after (register_known_systems_pre_boot sample_type_value
           SAMPLE_JOB_TYPE_GENERAL SAMPLE_JOB_TYPE_RESOURCE_LOAD
           SAMPLE_JOB_TYPE_GPU_RESOURCE single_core_ext sample_app_config)
    (sample_start 8).

(** * Properties *)

Section Properties.

Context {world font_system_config render_view_config : Type}.
Context (type_value : k_system_type -> nat) (K_SYSTEM_TYPE_MAX_COUNT : nat).
Context (JOB_TYPE_GENERAL JOB_TYPE_RESOURCE_LOAD JOB_TYPE_GPU_RESOURCE : Z).
Context (ext : @collaborators world font_system_config render_view_config).

Local Coercion type_value : k_system_type >-> nat.

Implicit Types p q : @process world font_system_config render_view_config.
Implicit Types steps : list (@boot_step render_view_config).
Implicit Types evs : list (@event render_view_config).
Implicit Types app_config : @application_config font_system_config render_view_config.

Local Open Scope exec_scope.

Notation "x <- c1 ;; c2" := (bind c1 (fun x => c2))
  (at level 100, c1 at next level, right associativity) : exec_scope.
Notation "c1 ;; c2" := (bind c1 (fun _ => c2))
  (at level 100, right associativity) : exec_scope.


(** ** Reasoning about [exec] *)

Lemma bind_Returns {A B} (m : exec A) (k : A -> exec B) p r :
  bind m k p = Returns r <->
  exists a p1, m p = Returns (a, p1) /\ k a p1 = Returns r.
Proof.
  unfold bind. split.
  - destruct (m p) as [[a p1]| |]; try discriminate. eauto.
  - intros (a & p1 & -> & Hk). exact Hk.
Qed.

Ltac exec_unfold :=
  unfold registered, KERROR, KFATAL, KTRACE, log_output, note, extern, query,
    allocate, set_slot, slot, value_of, undefined, fatal, bind, ret in *.

(** [systems_manager_register] with an initializer, case by case: what the
    two calls of the initializer and the allocator do decides the result. *)
Lemma register_initialize_cases type init sd upd cfg p :
  systems_manager_register type_value type (Some init) sd upd cfg p =
  match init Indeterminate 0%Z cfg (outside p) with
  | (false, _, w1) =>
      Returns (false,
        {| registry := registry p; outside := w1;
           log := log p ++ [(LOG_LEVEL_ERROR,
                   "Failed to register system - initialize call failed.")];
           history := history p ++ [ev_register type false] |})
  | (true, Indeterminate, _) => Undefined
  | (true, Value n, w1) =>
      match linear_allocator_allocate (systems_allocator (registry p)) n with
      | None => Fatal
      | Some (block, a) =>
          match init (Value n) block cfg w1 with
          | (false, _, w2) =>
              Returns (false,
                {| registry := {| systems_allocator := a;
                                  systems := systems (registry p) |};
                   outside := w2;
                   log := log p ++ [(LOG_LEVEL_ERROR,
                           "Failed to register system - initialize call failed.")];
                   history := history p ++ [ev_register type false] |})
          | (true, size, w2) =>
              if decide (type < length (systems (registry p))) then
                Returns (true,
                  {| registry :=
                       {| systems_allocator := a;
                          systems := <[type := registered_system size (Value block)
                                                  (Some init) sd upd]>
                                       (systems (registry p)) |};
                     outside := w2; log := log p;
                     history := history p ++ [ev_register type true] |})
              else Undefined
          end
      end
  end.
Proof.
  unfold systems_manager_register. exec_unfold. simpl.
  destruct (init Indeterminate 0%Z cfg (outside p)) as [[[] [|n]] w1];
    simpl; try reflexivity.
  destruct (linear_allocator_allocate _ n) as [[block a]|];
    simpl; try reflexivity.
  destruct (init (Value n) block cfg w1) as [[[] size] w2];
    simpl; try reflexivity.
  destruct (decide _); reflexivity.
Qed.

(** [systems_manager_register] without an initializer. *)
Lemma register_null_cases type sd upd cfg p :
  systems_manager_register type_value type None sd upd cfg p =
  if decide (type ≠ K_SYSTEM_TYPE_MEMORY) then
    Returns (false,
      {| registry := registry p; outside := outside p;
         log := log p ++ [(LOG_LEVEL_ERROR,
                 "Initialize is required for types except K_SYSTEM_TYPE_MEMORY.")];
         history := history p ++ [ev_register type false] |})
  else if decide (type < length (systems (registry p))) then
    Returns (true,
      {| registry :=
           {| systems_allocator := systems_allocator (registry p);
              systems := <[type := registered_system Indeterminate Indeterminate
                                      None sd upd]>
                           (systems (registry p)) |};
         outside := outside p; log := log p;
         history := history p ++ [ev_register type true] |})
  else Undefined.
Proof.
  unfold systems_manager_register. exec_unfold. simpl.
  destruct (decide (type ≠ _)); simpl; try reflexivity.
  destruct (decide (type < _)); reflexivity.
Qed.


(** A registration writes no other slot than its own, whatever it returns. *)
Lemma register_other_slots type init sd upd cfg p b p' j :
  systems_manager_register type_value type init sd upd cfg p = Returns (b, p') ->
  j ≠ type ->
  systems (registry p') !! j = systems (registry p) !! j.
Proof.
  intros H Hj. destruct init as [init|].
  - rewrite register_initialize_cases in H.
    destruct (init Indeterminate 0%Z cfg (outside p)) as [[[] [|n]] w1];
      try discriminate; try (by injection H as <- <-).
    destruct (linear_allocator_allocate _ n) as [[block a]|]; try discriminate.
    destruct (init (Value n) block cfg w1) as [[[] size] w2];
      try (by injection H as <- <-).
    destruct (decide _); try discriminate. injection H as <- <-. simpl.
    by apply list_lookup_insert_ne.
  - rewrite register_null_cases in H.
    repeat (destruct (decide _); try discriminate);
      injection H as <- <-; simpl; [done|].
    by apply list_lookup_insert_ne.
Qed.

(** ** The registration protocol *)

(** C8: a registration with a null initializer succeeds only for the memory
    type (and does succeed for it when its slot lies in the table); for every
    other type it returns false and leaves the registry, slot table and
    allocator, as it was. *)
Theorem register_null_initialize type sd upd cfg p :
  (forall p',
     systems_manager_register type_value type None sd upd cfg p =
       Returns (true, p') ->
     type = K_SYSTEM_TYPE_MEMORY) /\
  (type ≠ K_SYSTEM_TYPE_MEMORY ->
   exists p',
     systems_manager_register type_value type None sd upd cfg p =
       Returns (false, p') /\
     registry p' = registry p) /\
  (type = K_SYSTEM_TYPE_MEMORY -> type < length (systems (registry p)) ->
   exists p',
     systems_manager_register type_value type None sd upd cfg p =
       Returns (true, p')).
Proof.
  rewrite register_null_cases. split; [|split].
  - intros p'. destruct (decide (type ≠ _)) as [Hne|Heq]; [discriminate|].
    intros _. destruct (decide (type = K_SYSTEM_TYPE_MEMORY)); tauto.
  - intros Hne. destruct (decide (type ≠ _)); [|tauto]. eauto.
  - intros Heq Hlt. destruct (decide (type ≠ _)); [tauto|].
    destruct (decide (type < _)); [|tauto]. eauto.
Qed.

(** C6: when the sizing call of the initializer fails, the registration
    returns false with the slot table and the allocator untouched; when the
    second call fails, it returns false with the slot table untouched and the
    bytes of the state block still taken from the arena. *)
Theorem register_initialize_failure type init sd upd cfg p :
  (forall size w1,
     init Indeterminate 0%Z cfg (outside p) = (false, size, w1) ->
     exists p',
       systems_manager_register type_value type (Some init) sd upd cfg p =
         Returns (false, p') /\
       systems (registry p') = systems (registry p) /\
       systems_allocator (registry p') = systems_allocator (registry p)) /\
  (forall n w1 block a size w2,
     init Indeterminate 0%Z cfg (outside p) = (true, Value n, w1) ->
     linear_allocator_allocate (systems_allocator (registry p)) n = Some (block, a) ->
     init (Value n) block cfg w1 = (false, size, w2) ->
     exists p',
       systems_manager_register type_value type (Some init) sd upd cfg p =
         Returns (false, p') /\
       systems (registry p') = systems (registry p) /\
       allocated (systems_allocator (registry p')) =
         (allocated (systems_allocator (registry p)) + n)%Z).
Proof.
  rewrite register_initialize_cases. split.
  - intros size w1 ->. eauto.
  - intros n w1 block a size w2 H1 Halloc H2. rewrite H1, Halloc, H2.
    eexists. split; [reflexivity|]. split; [reflexivity|]. simpl.
    unfold linear_allocator_allocate in Halloc.
    destruct (_ <? _)%Z; [discriminate|]. by injection Halloc as _ <-.
Qed.

(** C4, as the code has it: in a registration that succeeds, the size the
    sizing call reports is the number of bytes taken from the arena for the
    block handed to the second call; the slot stores that block and, as its
    [state_size], what the second call leaves in the size cell, which is the
    reported size whenever the second call leaves the cell as it found it. *)
Theorem register_sizing_protocol type init sd upd cfg p p' :
  systems_manager_register type_value type (Some init) sd upd cfg p = Returns (true, p') ->
  exists n w1 block a size w2,
    init Indeterminate 0%Z cfg (outside p) = (true, Value n, w1) /\
    linear_allocator_allocate (systems_allocator (registry p)) n = Some (block, a) /\
    allocated a = (allocated (systems_allocator (registry p)) + n)%Z /\
    systems_allocator (registry p') = a /\
    init (Value n) block cfg w1 = (true, size, w2) /\
    systems (registry p') !! type =
      Some (registered_system size (Value block) (Some init) sd upd) /\
    (size = Value n ->
     state_size <$> systems (registry p') !! type = Some (Value n)).
Proof.
  rewrite register_initialize_cases.
  destruct (init Indeterminate 0%Z cfg (outside p)) as [[[] [|n]] w1] eqn:H1;
    try discriminate.
  destruct (linear_allocator_allocate _ n) as [[block a]|] eqn:Ha; try discriminate.
  destruct (init (Value n) block cfg w1) as [[[] size] w2] eqn:H2; try discriminate.
  destruct (decide _) as [Hlt|]; try discriminate.
  intros [= <-]. exists n, w1, block, a, size, w2. simpl.
  assert (Hslot : <[type := registered_system size (Value block) (Some init) sd upd]>
                    (systems (registry p)) !! type
                  = Some (registered_system size (Value block) (Some init) sd upd))
    by (by apply list_lookup_insert_eq).
  repeat split; try done.
  - unfold linear_allocator_allocate in Ha.
    destruct (_ <? _)%Z; [discriminate|]. by injection Ha as _ <-.
  - intros ->. by rewrite Hslot.
Qed.

(** C2, as the code has it: a registration for a type whose slot is already
    populated is not told apart from a first one. When the two calls of its
    initializer succeed it returns true, replaces the content of that slot
    by the new dispatch triple, state block and size, and leaves every other
    slot as it was. *)
Theorem register_again_overwrites type init sd upd cfg p old n w1 block a size w2 :
  systems (registry p) !! type = Some old ->
  init Indeterminate 0%Z cfg (outside p) = (true, Value n, w1) ->
  linear_allocator_allocate (systems_allocator (registry p)) n = Some (block, a) ->
  init (Value n) block cfg w1 = (true, size, w2) ->
  exists p',
    systems_manager_register type_value type (Some init) sd upd cfg p =
      Returns (true, p') /\
    systems (registry p') !! type =
      Some (registered_system size (Value block) (Some init) sd upd) /\
    forall j, j ≠ type -> systems (registry p') !! j = systems (registry p) !! j.
Proof.
  intros Hold H1 Ha H2. rewrite register_initialize_cases, H1, Ha, H2.
  apply lookup_lt_Some in Hold.
  destruct (decide _); [|lia].
  eexists. split; [reflexivity|]. simpl. split.
  - by apply list_lookup_insert_eq.
  - intros j Hj. by apply list_lookup_insert_ne.
Qed.

(** ** The update pass *)

Lemma update_loop_spec n : forall from delta_time p,
  from + n <= length (systems (registry p)) ->
  exists p' evs,
    update_loop n from delta_time p = Returns (tt, p') /\
    registry p' = registry p /\
    history p' = history p ++ evs /\
    Forall2 is_update_call evs (update_calls (systems (registry p)) from n delta_time) /\
    log p' = log p ++ update_errors evs.
Proof.
  induction n as [|n IH]; intros from dt p Hlen.
  - exists p, []. simpl. rewrite !app_nil_r. repeat split; constructor.
  - destruct (lookup_lt_is_Some_2 (systems (registry p)) from) as [s Hs]; [lia|].
    assert (Hstep : exists p1 evs1,
      update_slot from dt p = Returns (tt, p1) /\ registry p1 = registry p /\
      history p1 = history p ++ evs1 /\
      Forall2 is_update_call evs1
        (match update s with Some _ => [(from, state s, dt)] | None => [] end) /\
      log p1 = log p ++ update_errors evs1).
    { unfold update_slot. exec_unfold. rewrite Hs.
      destruct (update s) as [f|].
      - destruct (f (state s) dt (outside p)) as [ok w] eqn:Hf. simpl.
        destruct ok; eexists _, [ev_update from (state s) dt _];
          (split; [reflexivity|]); simpl;
          (split; [reflexivity|]); (split; [reflexivity|]).
        all: split; [repeat constructor; by eexists|].
        all: unfold update_errors; cbn; rewrite ?app_nil_r; reflexivity.
      - exists p, []. simpl. rewrite !app_nil_r. repeat split; constructor. }
    destruct Hstep as (p1 & evs1 & Hrun1 & Hreg1 & Hhist1 & Hcalls1 & Hlog1).
    destruct (IH (S from) dt p1) as (p2 & evs2 & Hrun2 & Hreg2 & Hhist2 & Hcalls2 & Hlog2);
      [rewrite Hreg1; lia|].
    exists p2, (evs1 ++ evs2). simpl. unfold bind at 1. rewrite Hrun1, Hrun2.
    split; [reflexivity|]. split; [congruence|].
    split; [rewrite Hhist2, Hhist1; by rewrite app_assoc|]. split.
    + unfold update_calls. simpl. rewrite Hs. rewrite Hreg1 in Hcalls2.
      destruct (update s); simpl.
      * change (?x :: ?l) with ([x] ++ l). by apply Forall2_app.
      * apply Forall2_nil_inv_r in Hcalls1 as ->. exact Hcalls2.
    + rewrite Hlog2, Hlog1. unfold update_errors.
      rewrite filter_app, fmap_app. by rewrite app_assoc.
Qed.


(** C9: [systems_manager_update] has no other result than true: whenever it
    returns it returns true, and over a table of full length it does return,
    whatever the updaters answer. *)
Theorem update_returns_true delta_time p :
  (forall b p',
     systems_manager_update K_SYSTEM_TYPE_MAX_COUNT delta_time p = Returns (b, p') ->
     b = true) /\
  (K_SYSTEM_TYPE_MAX_COUNT <= length (systems (registry p)) ->
   exists p',
     systems_manager_update K_SYSTEM_TYPE_MAX_COUNT delta_time p =
       Returns (true, p')).
Proof.
  split.
  - intros b p'. unfold systems_manager_update, bind, ret.
    destruct (update_loop _ _ _ _) as [[[] p1]| |]; congruence.
  - intros Hlen.
    destruct (update_loop_spec K_SYSTEM_TYPE_MAX_COUNT 0 delta_time p)
      as (p' & evs & Hrun & _); [lia|].
    exists p'. unfold systems_manager_update, bind, ret. by rewrite Hrun.
Qed.

(** ** The shutdown pass *)

Lemma shutdown_slot_run type s f p :
  systems (registry p) !! type = Some s ->
  shutdown s = Some f ->
  shutdown_slot type p =
  Returns (tt, {| registry := registry p; outside := f (state s) (outside p);
                  log := log p;
                  history := history p ++ [ev_shutdown type (state s)] |}).
Proof.
  intros Hs Hf. unfold shutdown_slot. exec_unfold. by rewrite Hs, Hf.
Qed.


Lemma shutdown_known_systems_unfold p :
  shutdown_known_systems type_value p =
  then_shutdown type_value (take 16 shutdown_order)
    (shutdown_slot K_SYSTEM_TYPE_MEMORY) p.
Proof. reflexivity. Qed.

Lemma then_shutdown_run p ts : forall k q,
  (forall t : k_system_type, t ∈ ts -> exists s f,
     systems (registry p) !! (t : nat) = Some s /\ shutdown s = Some f) ->
  registry q = registry p ->
  then_shutdown type_value ts k q =
  k {| registry := registry q;
       outside := foldl (fun w (t : k_system_type) => slot_shutdown p t w) (outside q) ts;
       log := log q;
       history := history q ++
         ((fun t : k_system_type => ev_shutdown t (slot_state p t)) <$> ts) |}.
Proof.
  induction ts as [|t ts IH]; intros k q Hall Hq.
  - simpl. rewrite app_nil_r. by destruct q.
  - destruct (Hall t) as (s & f & Hs & Hf); [left|].
    simpl. unfold bind at 1.
    rewrite (shutdown_slot_run t s f q) by (by rewrite ?Hq).
    rewrite IH; [|intros t' Ht'; apply Hall; by right|done].
    simpl. f_equal.
    assert (Hw : slot_shutdown p t (outside q) = f (state s) (outside q))
      by (unfold slot_shutdown; by rewrite Hs, Hf).
    assert (Hst : slot_state p t = state s)
      by (unfold slot_state; by rewrite Hs).
    rewrite Hw, Hst, <- app_assoc. reflexivity.
Qed.


(** C3, as the code has it: over a table in which every known slot holds a
    shutdown function, the shutdown pass calls the shutdown function of each
    slot on that slot's state in the order camera, font, render-view,
    geometry, material, texture, job, shader, renderer, resource, platform,
    input, logging, events, kvar, console, memory, whatever the order of the
    registrations was: seventeen slots, every known slot once. *)
Theorem shutdown_in_fixed_order p :
  Inj (=) (=) type_value ->
  (forall t : k_system_type, exists s f,
     systems (registry p) !! (t : nat) = Some s /\ shutdown s = Some f) ->
  shutdown_pass_calls type_value 17 p.
Proof.
  intros Hinj Hall.
  destruct (Hall K_SYSTEM_TYPE_MEMORY) as (s & f & Hs & Hf).
  eexists. split; [|split; [|split; [|split; [|split]]]].
  - unfold systems_manager_shutdown. rewrite shutdown_known_systems_unfold.
    rewrite (then_shutdown_run p) by (intros; auto).
    by apply shutdown_slot_run.
  - cbn [history]. rewrite <- app_assoc. f_equal.
    change shutdown_order with (take 16 shutdown_order ++ [K_SYSTEM_TYPE_MEMORY]).
    rewrite fmap_app. f_equal. cbn [fmap list_fmap]. unfold slot_state.
    by rewrite Hs.
  - cbn [outside].
    change shutdown_order with (take 16 shutdown_order ++ [K_SYSTEM_TYPE_MEMORY]) at 2.
    rewrite foldl_app. cbn [foldl].
    generalize (foldl (fun w (t : k_system_type) => slot_shutdown p t w)
                  (outside p) (take 16 shutdown_order)) as w.
    intros w. unfold slot_shutdown. by rewrite Hs, Hf.
  - reflexivity.
  - intros t. apply (bool_decide_unpack _). by destruct t.
  - apply (NoDup_fmap_2 _). by apply (bool_decide_unpack _).
Qed.

(** ** The job system setup *)

(** The branch on [max_thread_count], which is the constant 15, only looks at
    the renderer: the masks do not depend on the thread count. *)
Lemma job_thread_types_15 renderer_multithreaded :
  job_thread_types JOB_TYPE_GENERAL JOB_TYPE_RESOURCE_LOAD JOB_TYPE_GPU_RESOURCE
    15 renderer_multithreaded =
  if renderer_multithreaded then
    JOB_TYPE_GPU_RESOURCE :: JOB_TYPE_RESOURCE_LOAD :: replicate 13 JOB_TYPE_GENERAL
  else
    Z.lor JOB_TYPE_GENERAL (Z.lor JOB_TYPE_GPU_RESOURCE JOB_TYPE_RESOURCE_LOAD)
      :: replicate 14 JOB_TYPE_GENERAL.
Proof. by destruct renderer_multithreaded. Qed.

(** [register_job_system] for every processor count (of an [i32]) and every
    answer of the renderer: without a worker thread left it reports the fatal
    error and returns false; otherwise it registers the job system with the
    thread count capped at 15 and the masks above. *)
Lemma register_job_system_run p :
  let n := platform_get_processor_count ext (outside p) in
  let m := renderer_is_multithreaded ext (outside p) in
  (- 2 ^ 31 <= n - 1 <= 2 ^ 31 - 1)%Z ->
  register_job_system type_value JOB_TYPE_GENERAL JOB_TYPE_RESOURCE_LOAD
    JOB_TYPE_GPU_RESOURCE ext p =
  if (n - 1 <? 1)%Z then
    (KFATAL "Error: Platform reported processor count (minus one for main thread) as %i. Need at least one additional thread for the job system.";;
     ret false) p
  else
    (KTRACE "Available threads: %i";;
     (if (15 <? n - 1)%Z then
        KTRACE "Available threads on the system is %i, but will be capped at %i."
      else ret tt);;
     register_job_system_with type_value ext
       {| max_job_thread_count := Z.min (n - 1) 15;
          type_masks := job_thread_types JOB_TYPE_GENERAL JOB_TYPE_RESOURCE_LOAD
                          JOB_TYPE_GPU_RESOURCE 15 m |}) p.
Proof.
  intros n m Hrange.
  unfold register_job_system, register_job_system_with, i32_sub.
  unfold bind at 1, query at 1. unfold bind at 1, query at 1. fold n m.
  replace ((n - 1 <? - 2 ^ 31) || (2 ^ 31 - 1 <? n - 1))%Z with false
    by (symmetry; apply orb_false_iff; split; apply Z.ltb_ge; lia).
  unfold bind at 1, ret at 1.
  destruct (n - 1 <? 1)%Z; [reflexivity|].
  destruct (15 <? n - 1)%Z eqn:Hcap.
  - apply Z.ltb_lt in Hcap. rewrite Z.min_r by lia. reflexivity.
  - apply Z.ltb_ge in Hcap. rewrite Z.min_l by lia. reflexivity.
Qed.

(** C1, the code at two logical processors and a renderer that can be driven
    from several threads: the thread count is 1 and the job system is
    registered with thread 0 dedicated to GPU-resource work, not with the mask
    general|GPU-resource|resource-load of the table of section 4.3; no bit of
    the general work type that the GPU-resource type lacks is in its mask. *)
Theorem job_setup_two_processors p g :
  platform_get_processor_count ext (outside p) = 2%Z ->
  renderer_is_multithreaded ext (outside p) = true ->
  Z.testbit JOB_TYPE_GENERAL g = true ->
  Z.testbit JOB_TYPE_GPU_RESOURCE g = false ->
  exists job_sys_config,
    register_job_system type_value JOB_TYPE_GENERAL JOB_TYPE_RESOURCE_LOAD
      JOB_TYPE_GPU_RESOURCE ext p =
      (KTRACE "Available threads: %i";;
       register_job_system_with type_value ext job_sys_config) p /\
    max_job_thread_count job_sys_config = 1%Z /\
    type_masks job_sys_config !! 0 = Some JOB_TYPE_GPU_RESOURCE /\
    type_masks job_sys_config !! 0 ≠
      Some (Z.lor JOB_TYPE_GENERAL (Z.lor JOB_TYPE_GPU_RESOURCE JOB_TYPE_RESOURCE_LOAD)).
Proof.
  intros Hcount Hmt Hg Hgpu.
  exists {| max_job_thread_count := 1;
            type_masks := job_thread_types JOB_TYPE_GENERAL
                            JOB_TYPE_RESOURCE_LOAD JOB_TYPE_GPU_RESOURCE 15 true |}.
  split; [|split; [|split]].
  - unfold register_job_system, register_job_system_with, i32_sub.
    unfold bind at 1, query at 1. rewrite Hmt.
    unfold bind at 1, query at 1. rewrite Hcount. reflexivity.
  - reflexivity.
  - reflexivity.
  - rewrite job_thread_types_15. simpl. intros [= Heq].
    rewrite Heq, !Z.lor_spec, Hg in Hgpu. discriminate.
Qed.

(** ** The boot passes *)

Lemma boot_trace_prefix steps b evs :
  boot_trace type_value steps b evs ->
  if b then evs = (fun s => step_event type_value s true) <$> steps
  else exists k s, steps !! k = Some s /\
         evs = ((fun s => step_event type_value s true) <$> take k steps)
               ++ [step_event type_value s false].
Proof.
  induction 1 as [|s steps|s steps b evs _ IH].
  - reflexivity.
  - by exists 0, s.
  - destruct b.
    + by rewrite IH.
    + destruct IH as (k & s' & Hk & ->). by exists (S k), s'.
Qed.









(** ** The memory slot *)

Lemma guarded_register_slot t init sd upd cfg message (rest : exec b8) p b p' j :
  (ok <- systems_manager_register type_value t init sd upd cfg;;
   if negb ok then KERROR message;; ret false else rest) p = Returns (b, p') ->
  j ≠ t ->
  systems (registry p') !! j = systems (registry p) !! j \/
  (exists p1, systems (registry p1) !! j = systems (registry p) !! j /\
              rest p1 = Returns (b, p')).
Proof.
  intros H Hj. apply bind_Returns in H as (ok & p1 & Hreg & H).
  apply register_other_slots with (j := j) in Hreg; [|done].
  destruct ok; simpl in H.
  - right. eauto.
  - left. exec_unfold. by injection H as <- <-.
Qed.

Lemma register_job_system_slot p b p' (j : nat) :
  register_job_system type_value JOB_TYPE_GENERAL JOB_TYPE_RESOURCE_LOAD
    JOB_TYPE_GPU_RESOURCE ext p = Returns (b, p') ->
  j ≠ type_value K_SYSTEM_TYPE_JOB ->
  systems (registry p') !! j = systems (registry p) !! j.
Proof.
  unfold register_job_system, i32_sub. intros H Hj.
  apply bind_Returns in H as (m & p1 & [= <- <-] & H).
  apply bind_Returns in H as (n & p1 & [= <- <-] & H).
  apply bind_Returns in H as (tc & p1 & Hsub & H).
  destruct (_ || _)%bool; [discriminate|]. injection Hsub as <- <-.
  destruct (_ <? 1)%Z.
  - exec_unfold. by injection H as <- <-.
  - apply bind_Returns in H as ([] & p1 & [= <-] & H).
    apply bind_Returns in H as (tc & p2 & Hcap & H).
    assert (Hp2 : registry p2 = registry p).
    { destruct (15 <? _)%Z; exec_unfold; by injection Hcap as <- <-. }
    apply guarded_register_slot with (j := j) in H as [H|(p3 & H & [= <- <-])];
      [| |done]; by rewrite H, Hp2.
Qed.

Lemma create_render_views_registry views : forall p b p',
  create_render_views ext views p = Returns (b, p') -> registry p' = registry p.
Proof.
  induction views as [|view views IH]; intros p b p' H; simpl in H.
  - by injection H as <- <-.
  - apply bind_Returns in H as (ok & p1 & Hcall & H).
    apply bind_Returns in H as ([] & p2 & Hnote & H).
    assert (Hp2 : registry p2 = registry p).
    { exec_unfold. destruct (render_view_system_create _ _ _).
      injection Hcall as <- <-. by injection Hnote as <-. }
    destruct ok; simpl in H.
    + by rewrite (IH _ _ _ H).
    + exec_unfold. by injection H as <- <-.
Qed.


(** * Further properties of the code *)

(** ** What a registration leaves behind *)

(** The two ways [systems_manager_register] returns: false, with one error
    logged and the table as it was, or true, with nothing logged and its own
    slot, which lies in the table, holding the new system. *)
Lemma register_result type init sd upd cfg p b p' :
  systems_manager_register type_value type init sd upd cfg p = Returns (b, p') ->
  (b = false /\ systems (registry p') = systems (registry p) /\
   exists message, log p' = log p ++ [(LOG_LEVEL_ERROR, message)]) \/
  (b = true /\ type < length (systems (registry p)) /\ log p' = log p /\
   exists size block,
     systems (registry p') =
     <[type := registered_system size block init sd upd]> (systems (registry p))).
Proof.
  intros H. destruct init as [init|].
  - rewrite register_initialize_cases in H.
    destruct (init Indeterminate 0%Z cfg (outside p)) as [[[] [|n]] w1];
      try discriminate;
      try (injection H as <- <-; left; simpl; by eauto).
    destruct (linear_allocator_allocate _ n) as [[block a]|]; try discriminate.
    destruct (init (Value n) block cfg w1) as [[[] size] w2];
      try (injection H as <- <-; left; simpl; by eauto).
    destruct (decide _); try discriminate. injection H as <- <-.
    right. simpl. by eauto 10.
  - rewrite register_null_cases in H.
    destruct (decide (_ ≠ _)).
    + injection H as <- <-. left. simpl. by eauto.
    + destruct (decide (_ < _)); try discriminate. injection H as <- <-.
      right. simpl. by eauto 10.
Qed.

(** X1: whatever its arguments and its result, a registration keeps the
    length of the slot table and every slot other than its own; when it
    returns false the whole table is as it was, and when it returns true its
    own slot holds the dispatch triple it was given. *)
Theorem register_postcondition type init sd upd cfg p b p' :
  systems_manager_register type_value type init sd upd cfg p = Returns (b, p') ->
  length (systems (registry p')) = length (systems (registry p)) /\
  (forall j, j ≠ type ->
     systems (registry p') !! j = systems (registry p) !! j) /\
  (b = false -> systems (registry p') = systems (registry p)) /\
  (b = true -> exists size block,
     systems (registry p') !! type =
     Some (registered_system size block init sd upd)).
Proof.
  intros H.
  apply register_result in H
    as [(-> & Hsys & _)|(-> & Hlt & _ & size & block & Hsys)]; rewrite Hsys.
  - repeat split; try done.
  - rewrite length_insert. repeat split; try done.
    + intros j Hj. by apply list_lookup_insert_ne.
    + intros _. exists size, block. by apply list_lookup_insert_eq.
Qed.

(** ** What the boot passes leave behind *)

Lemma guarded_register_length t init sd upd cfg message (rest : exec b8) p b p' :
  (ok <- systems_manager_register type_value t init sd upd cfg;;
   if negb ok then KERROR message;; ret false else rest) p = Returns (b, p') ->
  length (systems (registry p')) = length (systems (registry p)) \/
  (exists p1, length (systems (registry p1)) = length (systems (registry p)) /\
              rest p1 = Returns (b, p')).
Proof.
  intros H. apply bind_Returns in H as (ok & p1 & Hreg & H).
  apply register_result in Hreg
    as [(-> & Hsys & _)|(-> & _ & _ & size & block & Hsys)]; simpl in H.
  - left. exec_unfold. injection H as <- <-. simpl. by rewrite Hsys.
  - right. exists p1. by rewrite Hsys, length_insert.
Qed.

Lemma register_job_system_length p b p' :
  register_job_system type_value JOB_TYPE_GENERAL JOB_TYPE_RESOURCE_LOAD
    JOB_TYPE_GPU_RESOURCE ext p = Returns (b, p') ->
  length (systems (registry p')) = length (systems (registry p)).
Proof.
  unfold register_job_system, i32_sub. intros H.
  apply bind_Returns in H as (m & p1 & [= <- <-] & H).
  apply bind_Returns in H as (n & p1 & [= <- <-] & H).
  apply bind_Returns in H as (tc & p1 & Hsub & H).
  destruct (_ || _)%bool; [discriminate|]. injection Hsub as <- <-.
  destruct (_ <? 1)%Z.
  - exec_unfold. by injection H as <- <-.
  - apply bind_Returns in H as ([] & p1 & [= <-] & H).
    apply bind_Returns in H as (tc & p2 & Hcap & H).
    assert (Hp2 : registry p2 = registry p).
    { destruct (15 <? _)%Z; exec_unfold; by injection Hcap as <- <-. }
    apply guarded_register_length in H as [H|(p3 & H & [= <- <-])];
      by rewrite H, Hp2.
Qed.

(** Either pass, whatever it returns, keeps the slots that belong to no
    known type. *)
Lemma boot_pass_other_slots app_config p b p' (j : nat) :
  (register_known_systems_pre_boot type_value JOB_TYPE_GENERAL
     JOB_TYPE_RESOURCE_LOAD JOB_TYPE_GPU_RESOURCE ext app_config p =
     Returns (b, p') \/
   register_known_systems_post_boot type_value ext app_config p =
     Returns (b, p')) ->
  (forall t, j ≠ type_value t) ->
  systems (registry p') !! j = systems (registry p) !! j.
Proof.
  intros [H|H] Hj.
  - unfold register_known_systems_pre_boot in H. cbv zeta in H.
    do 10 (apply guarded_register_slot with (j := j) in H as [H|(? & ? & H)];
           [congruence| |apply Hj]).
    apply register_job_system_slot with (j := j) in H; [congruence|apply Hj].
  - unfold register_known_systems_post_boot in H. cbv zeta in H.
    do 4 (apply guarded_register_slot with (j := j) in H as [H|(? & ? & H)];
          [congruence| |apply Hj]).
    apply bind_Returns in H as (ok & p1 & Hloop & H).
    apply create_render_views_registry in Hloop.
    destruct ok; cbn [negb] in H; [|injection H as <- <-; congruence].
    do 2 (apply guarded_register_slot with (j := j) in H as [H|(? & ? & H)];
          [congruence| |apply Hj]).
    injection H as <- <-. congruence.
Qed.

(** X2: whatever they return, the boot passes keep the length of the slot
    table and write no slot other than those of the known types: a slot whose
    index is the value of no enumerator of [k_system_type] is after either
    pass what it was before. *)
Theorem boot_passes_keep_other_slots app_config p b p' :
  (register_known_systems_pre_boot type_value JOB_TYPE_GENERAL
     JOB_TYPE_RESOURCE_LOAD JOB_TYPE_GPU_RESOURCE ext app_config p =
     Returns (b, p') \/
   register_known_systems_post_boot type_value ext app_config p =
     Returns (b, p')) ->
  length (systems (registry p')) = length (systems (registry p)) /\
  forall j : nat, (forall t, j ≠ type_value t) ->
    systems (registry p') !! j = systems (registry p) !! j.
Proof.
  intros Hrun. split.
  - destruct Hrun as [H|H].
    + unfold register_known_systems_pre_boot in H. cbv zeta in H.
      do 10 (apply guarded_register_length in H as [H|(? & ? & H)];
             [congruence|]).
      apply register_job_system_length in H. congruence.
    + unfold register_known_systems_post_boot in H. cbv zeta in H.
      do 4 (apply guarded_register_length in H as [H|(? & ? & H)];
            [congruence|]).
      apply bind_Returns in H as (ok & p1 & Hloop & H).
      apply create_render_views_registry in Hloop.
      destruct ok; cbn [negb] in H; [|injection H as <- <-; congruence].
      do 2 (apply guarded_register_length in H as [H|(? & ? & H)];
            [congruence|]).
      injection H as <- <-. congruence.
  - intros j Hj. by apply (boot_pass_other_slots app_config p b p').
Qed.

Lemma holds_known_step ts table table' (t : k_system_type) size block :
  Inj (=) (=) type_value ->
  holds_known type_value ext ts table ->
  type_value t < length table ->
  table' = <[type_value t := registered_system size block (known_initialize ext t)
                               (Some (known_shutdown ext t)) (known_update ext t)]>
             table ->
  holds_known type_value ext (ts ++ [t]) table'.
Proof.
  intros Hinj Hknown Hlt -> t' Ht'.
  destruct (decide (t' = t)) as [->|Hne].
  - exists size, block. by apply list_lookup_insert_eq.
  - apply elem_of_app in Ht' as [Ht'|Ht'].
    + destruct (Hknown t' Ht') as (size' & block' & Hslot).
      exists size', block'. rewrite list_lookup_insert_ne; [done|].
      intros Heq. by apply Hinj in Heq.
    + apply list_elem_of_singleton in Ht'. done.
Qed.

Lemma guarded_register_true t init sd upd cfg message (rest : exec b8) p p' :
  (ok <- systems_manager_register type_value t init sd upd cfg;;
   if negb ok then KERROR message;; ret false else rest) p = Returns (true, p') ->
  exists p1 size block,
    t < length (systems (registry p)) /\
    systems (registry p1) =
      <[t := registered_system size block init sd upd]> (systems (registry p)) /\
    rest p1 = Returns (true, p').
Proof.
  intros H. apply bind_Returns in H as (ok & p1 & Hreg & H).
  apply register_result in Hreg
    as [(-> & _ & _)|(-> & Hlt & _ & size & block & Hsys)]; simpl in H.
  - exec_unfold. discriminate.
  - by exists p1, size, block.
Qed.

Lemma register_job_system_true p p' :
  register_job_system type_value JOB_TYPE_GENERAL JOB_TYPE_RESOURCE_LOAD
    JOB_TYPE_GPU_RESOURCE ext p = Returns (true, p') ->
  exists size block,
    type_value K_SYSTEM_TYPE_JOB < length (systems (registry p)) /\
    systems (registry p') =
      <[type_value K_SYSTEM_TYPE_JOB :=
          registered_system size block (Some (job_system_initialize ext))
            (Some (job_system_shutdown ext)) (Some (job_system_update ext))]>
        (systems (registry p)).
Proof.
  unfold register_job_system, i32_sub. intros H.
  apply bind_Returns in H as (m & p1 & [= <- <-] & H).
  apply bind_Returns in H as (n & p1 & [= <- <-] & H).
  apply bind_Returns in H as (tc & p1 & Hsub & H).
  destruct (_ || _)%bool; [discriminate|]. injection Hsub as <- <-.
  destruct (_ <? 1)%Z.
  - exec_unfold. discriminate.
  - apply bind_Returns in H as ([] & p1 & [= <-] & H).
    apply bind_Returns in H as (tc & p2 & Hcap & H).
    assert (Hp2 : registry p2 = registry p).
    { destruct (15 <? _)%Z; exec_unfold; by injection Hcap as <- <-. }
    apply guarded_register_true in H as (p3 & size & block & Hlt & Hsys & [= <-]).
    exists size, block. by rewrite Hsys, Hp2 in *.
Qed.

(** Takes one registration off a pass that returned true and moves the
    invariant [Hknown] over it. *)
Ltac known_step H Hknown Hinj :=
  let Hlt := fresh "Hlt" in
  let Hsys := fresh "Hsys" in
  apply guarded_register_true in H as (? & ? & ? & Hlt & Hsys & H);
  eapply holds_known_step in Hsys; [|exact Hinj|exact Hknown|exact Hlt];
  clear Hknown Hlt; rename Hsys into Hknown.

Lemma pre_boot_known app_config ts p p' :
  Inj (=) (=) type_value ->
  holds_known type_value ext ts (systems (registry p)) ->
  register_known_systems_pre_boot type_value JOB_TYPE_GENERAL
    JOB_TYPE_RESOURCE_LOAD JOB_TYPE_GPU_RESOURCE ext app_config p =
    Returns (true, p') ->
  holds_known type_value ext (ts ++ pre_boot_order) (systems (registry p')).
Proof.
  intros Hinj Hknown.
  unfold register_known_systems_pre_boot. cbv zeta. intros H.
  do 10 known_step H Hknown Hinj.
  apply register_job_system_true in H as (size & block & Hlt & Hsys).
  eapply holds_known_step in Hsys; [|exact Hinj|exact Hknown|exact Hlt].
  by rewrite <- !app_assoc in Hsys.
Qed.

Lemma post_boot_known app_config ts p p' :
  Inj (=) (=) type_value ->
  holds_known type_value ext ts (systems (registry p)) ->
  register_known_systems_post_boot type_value ext app_config p =
    Returns (true, p') ->
  holds_known type_value ext (ts ++ post_boot_order) (systems (registry p')).
Proof.
  intros Hinj Hknown.
  unfold register_known_systems_post_boot. cbv zeta. intros H.
  do 4 known_step H Hknown Hinj.
  apply bind_Returns in H as (ok & p1 & Hloop & H).
  apply create_render_views_registry in Hloop. rewrite <- Hloop in Hknown.
  destruct ok; cbn [negb] in H; [|discriminate].
  do 2 known_step H Hknown Hinj.
  injection H as <-. by rewrite <- !app_assoc in Hknown.
Qed.

(** Both passes, the second from any process that has the registry the
    first one left. *)
Lemma boot_known app_config p p1 q p2 :
  Inj (=) (=) type_value ->
  register_known_systems_pre_boot type_value JOB_TYPE_GENERAL
    JOB_TYPE_RESOURCE_LOAD JOB_TYPE_GPU_RESOURCE ext app_config p =
    Returns (true, p1) ->
  registry q = registry p1 ->
  register_known_systems_post_boot type_value ext app_config q =
    Returns (true, p2) ->
  forall t, exists size block,
    systems (registry p2) !! type_value t =
    Some (registered_system size block (known_initialize ext t)
            (Some (known_shutdown ext t)) (known_update ext t)).
Proof.
  intros Hinj Hpre Hq Hpost t.
  apply (pre_boot_known _ []) in Hpre; [|done|by intros ? ?%elem_of_nil].
  rewrite <- Hq in Hpre.
  apply (post_boot_known _ _ _ _ Hinj Hpre) in Hpost.
  apply Hpost. apply (bool_decide_unpack _). by destruct t.
Qed.

(** X3: after a pre-boot pass and a post-boot pass that both return true,
    every known type has its slot in the table, holding the initialize,
    shutdown and update functions of its subsystem (no initializer for the
    memory system; an updater for the job system only). *)
Theorem boot_populates_known_slots app_config p p1 q p2 (t : k_system_type) :
  Inj (=) (=) type_value ->
  register_known_systems_pre_boot type_value JOB_TYPE_GENERAL
    JOB_TYPE_RESOURCE_LOAD JOB_TYPE_GPU_RESOURCE ext app_config p =
    Returns (true, p1) ->
  registry q = registry p1 ->
  register_known_systems_post_boot type_value ext app_config q =
    Returns (true, p2) ->
  exists s,
    systems (registry p2) !! type_value t = Some s /\
    initialize s = known_initialize ext t /\
    shutdown s = Some (known_shutdown ext t) /\
    update s = known_update ext t.
Proof.
  intros Hinj Hpre Hq Hpost.
  destruct (boot_known app_config p p1 q p2 Hinj Hpre Hq Hpost t)
    as (size & block & Hslot).
  eexists. split; [exact Hslot|]. done.
Qed.

(** ** Shutdown passes *)

(** The process a shutdown pass ends in, over a table in which every known
    slot holds a shutdown function. *)
Lemma shutdown_pass_run p :
  (forall t : k_system_type, exists s f,
     systems (registry p) !! type_value t = Some s /\ shutdown s = Some f) ->
  systems_manager_shutdown type_value p =
  Returns (tt,
    {| registry := registry p;
       outside := foldl (fun w (t : k_system_type) => slot_shutdown p t w)
                    (outside p) shutdown_order;
       log := log p;
       history := history p ++
         ((fun t : k_system_type => ev_shutdown t (slot_state p t))
            <$> shutdown_order) |}).
Proof.
  intros Hall. destruct (Hall K_SYSTEM_TYPE_MEMORY) as (s & f & Hs & Hf).
  unfold systems_manager_shutdown. rewrite shutdown_known_systems_unfold.
  rewrite (then_shutdown_run p) by (intros; auto).
  rewrite (shutdown_slot_run _ s f) by done.
  cbn [registry log history outside].
  assert (Hw : forall w, f (state s) w = slot_shutdown p K_SYSTEM_TYPE_MEMORY w)
    by (intros w; unfold slot_shutdown; by rewrite Hs, Hf).
  assert (Hst : state s = slot_state p K_SYSTEM_TYPE_MEMORY)
    by (unfold slot_state; by rewrite Hs).
  rewrite Hw, Hst, <- app_assoc. reflexivity.
Qed.

(** X4: a boot establishes what the shutdown pass needs. After a pre-boot
    pass and a post-boot pass that returned true, the shutdown pass, from any
    process with the registry they left, returns: it applies the shutdown
    functions of the seventeen subsystems, in the shutdown order, each to the
    state stored in its slot, and leaves the registry as it is. *)
Theorem shutdown_after_boot app_config p p1 q p2 q2 :
  Inj (=) (=) type_value ->
  register_known_systems_pre_boot type_value JOB_TYPE_GENERAL
    JOB_TYPE_RESOURCE_LOAD JOB_TYPE_GPU_RESOURCE ext app_config p =
    Returns (true, p1) ->
  registry q = registry p1 ->
  register_known_systems_post_boot type_value ext app_config q =
    Returns (true, p2) ->
  registry q2 = registry p2 ->
  exists q3,
    systems_manager_shutdown type_value q2 = Returns (tt, q3) /\
    registry q3 = registry q2 /\
    outside q3 = foldl (fun w t => known_shutdown ext t (slot_state q2 (type_value t)) w)
                   (outside q2) shutdown_order /\
    history q3 = history q2 ++
      ((fun t : k_system_type => ev_shutdown t (slot_state q2 t)) <$> shutdown_order).
Proof.
  intros Hinj Hpre Hq Hpost Hr.
  pose proof (boot_known app_config p p1 q p2 Hinj Hpre Hq Hpost) as Hknown.
  rewrite <- Hr in Hknown.
  eexists. split; [|split; [|split]].
  - apply shutdown_pass_run. intros t.
    destruct (Hknown t) as (size & block & Hslot). by eauto.
  - reflexivity.
  - cbn [outside]. generalize (outside q2) as w.
    induction shutdown_order as [|t ts IH]; intros w; [done|].
    cbn [foldl]. rewrite <- IH. f_equal.
    destruct (Hknown t) as (size & block & Hslot).
    unfold slot_shutdown, slot_state. by rewrite Hslot.
  - reflexivity.
Qed.


(** ** Update passes *)

Lemma bind_bind {A B C} (m : exec A) (f : A -> exec B) (g : B -> exec C) p :
  bind (bind m f) g p = bind m (fun a => bind (f a) g) p.
Proof. unfold bind. by destruct (m p) as [[a p1]| |]. Qed.

Lemma bind_ext {A B} (m : exec A) (f g : A -> exec B) p :
  (forall a p1, f a p1 = g a p1) -> bind m f p = bind m g p.
Proof. intros Hfg. unfold bind. by destruct (m p) as [[a p1]| |]. Qed.

Lemma update_loop_add n1 : forall n2 from delta_time p,
  update_loop (n1 + n2) from delta_time p =
  (update_loop n1 from delta_time;; update_loop n2 (from + n1) delta_time) p.
Proof.
  induction n1 as [|n1 IH]; intros n2 from dt p.
  - unfold bind. simpl. by rewrite Nat.add_0_r.
  - cbn [update_loop Nat.add]. rewrite bind_bind. apply bind_ext.
    intros [] p1. rewrite IH.
    by replace (S from + n1) with (from + S n1) by lia.
Qed.

Lemma update_loop_idle n : forall from delta_time p,
  (forall i, from <= i < from + n -> exists s,
     systems (registry p) !! i = Some s /\ update s = None) ->
  update_loop n from delta_time p = Returns (tt, p).
Proof.
  induction n as [|n IH]; intros from dt p Hidle; [done|].
  simpl. unfold bind at 1, update_slot, bind at 1, slot.
  destruct (Hidle from) as (s & -> & ->); [lia|].
  unfold ret at 1. apply IH. intros i Hi. apply Hidle. lia.
Qed.

(** The process an update call through slot [j] ends in. *)
Lemma update_slot_call j s f delta_time p :
  systems (registry p) !! j = Some s ->
  update s = Some f ->
  update_slot j delta_time p =
  Returns (tt,
    {| registry := registry p;
       outside := (f (state s) delta_time (outside p)).2;
       log := log p ++
              (if (f (state s) delta_time (outside p)).1 then []
               else [update_error]);
       history := history p ++
                  [ev_update j (state s) delta_time
                     (f (state s) delta_time (outside p)).1] |}).
Proof.
  intros Hs Hf. unfold update_slot. exec_unfold. rewrite Hs, Hf.
  destruct (f (state s) delta_time (outside p)) as [[] w]; simpl;
    by rewrite ?app_nil_r.
Qed.

(** A pass over a table in which slot [j] alone has an updater. *)
Lemma update_pass_single j s f delta_time p :
  j < K_SYSTEM_TYPE_MAX_COUNT ->
  systems (registry p) !! j = Some s ->
  update s = Some f ->
  (forall i, i < K_SYSTEM_TYPE_MAX_COUNT -> i ≠ j -> exists s',
     systems (registry p) !! i = Some s' /\ update s' = None) ->
  systems_manager_update K_SYSTEM_TYPE_MAX_COUNT delta_time p =
  Returns (true,
    {| registry := registry p;
       outside := (f (state s) delta_time (outside p)).2;
       log := log p ++
              (if (f (state s) delta_time (outside p)).1 then []
               else [update_error]);
       history := history p ++
                  [ev_update j (state s) delta_time
                     (f (state s) delta_time (outside p)).1] |}).
Proof.
  intros Hj Hs Hf Hothers. unfold systems_manager_update.
  replace K_SYSTEM_TYPE_MAX_COUNT
    with (j + (1 + (K_SYSTEM_TYPE_MAX_COUNT - j - 1))) at 1 by lia.
  unfold bind at 1. rewrite update_loop_add. unfold bind at 1.
  rewrite update_loop_idle by (intros i Hi; apply Hothers; lia).
  rewrite update_loop_add. unfold bind at 1. simpl update_loop at 1.
  unfold bind at 1. rewrite (update_slot_call j s f) by done.
  unfold ret at 1. rewrite update_loop_idle; [done|].
  intros i Hi. cbn [registry]. apply Hothers; lia.
Qed.

(** X6: over a table in which no slot below [K_SYSTEM_TYPE_MAX_COUNT] has an
    updater, the zeroed table of a fresh registry for one, the update pass
    returns true and leaves the process exactly as it was: no call, no log
    entry. *)
Theorem update_pass_idle delta_time p :
  no_updater_below K_SYSTEM_TYPE_MAX_COUNT (systems (registry p)) ->
  systems_manager_update K_SYSTEM_TYPE_MAX_COUNT delta_time p = Returns (true, p).
Proof.
  intros Hidle. unfold systems_manager_update, bind.
  rewrite update_loop_idle; [done|]. intros i Hi. apply Hidle. lia.
Qed.

(** X7: a frame after a boot. From a table without updaters, after a pre-boot
    pass and a post-boot pass that returned true, the update pass makes one
    call and no other: [job_system_update], on the state block of the job
    slot and with the elapsed time; it returns true whatever that call
    returns, logging one error if it failed. *)
Theorem update_after_boot app_config p p1 q p2 q2 delta_time :
  Inj (=) (=) type_value ->
  no_updater_below K_SYSTEM_TYPE_MAX_COUNT (systems (registry p)) ->
  type_value K_SYSTEM_TYPE_JOB < K_SYSTEM_TYPE_MAX_COUNT ->
  register_known_systems_pre_boot type_value JOB_TYPE_GENERAL
    JOB_TYPE_RESOURCE_LOAD JOB_TYPE_GPU_RESOURCE ext app_config p =
    Returns (true, p1) ->
  registry q = registry p1 ->
  register_known_systems_post_boot type_value ext app_config q =
    Returns (true, p2) ->
  registry q2 = registry p2 ->
  exists q3 ok,
    systems_manager_update K_SYSTEM_TYPE_MAX_COUNT delta_time q2 = Returns (true, q3) /\
    job_system_update ext (slot_state q2 (type_value K_SYSTEM_TYPE_JOB)) delta_time
      (outside q2) = (ok, outside q3) /\
    history q3 = history q2 ++
      [ev_update (type_value K_SYSTEM_TYPE_JOB)
         (slot_state q2 (type_value K_SYSTEM_TYPE_JOB)) delta_time ok] /\
    log q3 = log q2 ++ (if ok then [] else [update_error]) /\
    registry q3 = registry q2.
Proof.
  intros Hinj Hidle Hjob Hpre Hq Hpost Hq2.
  pose proof (boot_known app_config p p1 q p2 Hinj Hpre Hq Hpost) as Hknown.
  pose proof (fun j => boot_pass_other_slots app_config p true p1 j
                        (or_introl Hpre)) as Hpre_frame.
  pose proof (fun j => boot_pass_other_slots app_config q true p2 j
                        (or_intror Hpost)) as Hpost_frame.
  rewrite <- Hq2 in Hknown, Hpost_frame. rewrite Hq in Hpost_frame.
  destruct (Hknown K_SYSTEM_TYPE_JOB) as (size & block & Hslot).
  assert (Hothers : forall i, i < K_SYSTEM_TYPE_MAX_COUNT ->
            i ≠ type_value K_SYSTEM_TYPE_JOB -> exists s',
              systems (registry q2) !! i = Some s' /\ update s' = None).
  { intros i Hi Hne.
    destruct (decide (i ∈ type_value <$> shutdown_order)) as [Hin|Hout].
    - apply list_elem_of_fmap in Hin as (t & -> & _).
      destruct (Hknown t) as (size' & block' & Hslot').
      eexists. split; [exact Hslot'|]. by destruct t.
    - assert (Hnone : forall t, i ≠ type_value t).
      { intros t ->. apply Hout. apply list_elem_of_fmap. exists t.
        split; [done|]. apply (bool_decide_unpack _). by destruct t. }
      rewrite (Hpost_frame i Hnone), (Hpre_frame i Hnone). by apply Hidle. }
  pose proof (update_pass_single _ _ (job_system_update ext) delta_time q2
                Hjob Hslot eq_refl Hothers) as Hrun.
  assert (Hst : slot_state q2 (type_value K_SYSTEM_TYPE_JOB) = block)
    by (unfold slot_state; by rewrite Hslot).
  rewrite Hst. cbn [state registered_system] in Hrun.
  eexists _, (job_system_update ext block delta_time (outside q2)).1.
  split; [exact Hrun|]. cbn [outside history log registry].
  split; [by destruct (job_system_update ext block delta_time (outside q2))|].
  done.
Qed.

(** ** The job system setup, for every processor count *)

(** X8: for every processor count from 2 on, the job system is registered
    with the thread count min(count - 1, 15), which lies between 1 and 15,
    and with an array of 15 masks, so that every worker thread has its mask;
    up to that registration only traces were logged and nothing else
    changed. *)
Theorem job_setup_thread_count p :
  let n := platform_get_processor_count ext (outside p) in
  (2 <= n < 2 ^ 31)%Z ->
  exists job_sys_config p0,
    register_job_system type_value JOB_TYPE_GENERAL JOB_TYPE_RESOURCE_LOAD
      JOB_TYPE_GPU_RESOURCE ext p =
      register_job_system_with type_value ext job_sys_config p0 /\
    registry p0 = registry p /\ outside p0 = outside p /\
    history p0 = history p /\
    (exists traces, log p0 = log p ++ traces /\ Forall is_trace traces) /\
    max_job_thread_count job_sys_config = Z.min (n - 1) 15 /\
    (1 <= max_job_thread_count job_sys_config <= 15)%Z /\
    length (type_masks job_sys_config) = 15 /\
    forall i : nat, (Z.of_nat i < max_job_thread_count job_sys_config)%Z ->
      is_Some (type_masks job_sys_config !! i).
Proof.
  intros n Hn. rewrite register_job_system_run by (fold n; lia). fold n.
  replace (n - 1 <? 1)%Z with false by (symmetry; apply Z.ltb_ge; lia).
  assert (Hlen : length (job_thread_types JOB_TYPE_GENERAL JOB_TYPE_RESOURCE_LOAD
                   JOB_TYPE_GPU_RESOURCE 15
                   (renderer_is_multithreaded ext (outside p))) = 15)
    by (rewrite job_thread_types_15; by destruct (renderer_is_multithreaded _ _)).
  destruct (15 <? n - 1)%Z;
    (eexists _, _; split; [reflexivity|];
     cbn [max_job_thread_count type_masks registry outside history log];
     do 3 (split; [reflexivity|]);
     split; [eexists; split; [by rewrite <- ?app_assoc|by repeat constructor]|];
     split; [reflexivity|]; split; [lia|]; split; [exact Hlen|];
     intros i Hi; apply lookup_lt_is_Some; rewrite Hlen; lia).
Qed.

(** X9: the masks cover the work types whenever the renderer cannot be
    driven from several threads or at least three worker threads exist: each
    of the three work types is then in the mask of some worker thread. *)
Theorem job_masks_cover_work_types renderer_multithreaded thread_count type :
  (1 <= thread_count)%Z ->
  renderer_multithreaded = false \/ (3 <= thread_count)%Z ->
  type ∈ [JOB_TYPE_GENERAL; JOB_TYPE_GPU_RESOURCE; JOB_TYPE_RESOURCE_LOAD] ->
  exists (i : nat) mask,
    (Z.of_nat i < thread_count)%Z /\
    job_thread_types JOB_TYPE_GENERAL JOB_TYPE_RESOURCE_LOAD JOB_TYPE_GPU_RESOURCE
      15 renderer_multithreaded !! i = Some mask /\
    mask_includes mask type.
Proof.
  intros Hone Hcase Htype. rewrite job_thread_types_15.
  assert (Hall : forall a b c x, x = a \/ x = b \/ x = c ->
            mask_includes (Z.lor a (Z.lor b c)) x).
  { intros a b c x Hx. unfold mask_includes. apply Z.bits_inj'. intros k _.
    rewrite !Z.lor_spec.
    destruct Hx as [->|[->| ->]];
      destruct (Z.testbit a k), (Z.testbit b k), (Z.testbit c k); reflexivity. }
  rewrite !elem_of_cons, elem_of_nil in Htype.
  destruct renderer_multithreaded.
  - destruct Hcase as [|Hthree]; [discriminate|].
    destruct Htype as [->|[->|[->|[]]]].
    + exists 2, JOB_TYPE_GENERAL. repeat split; [lia|apply Z.lor_diag].
    + exists 0, JOB_TYPE_GPU_RESOURCE. repeat split; [lia|apply Z.lor_diag].
    + exists 1, JOB_TYPE_RESOURCE_LOAD. repeat split; [lia|apply Z.lor_diag].
  - eexists 0, _. split; [lia|]. split; [reflexivity|].
    apply Hall. tauto.
Qed.

(** ** What the boot passes log *)

Lemma guarded_register_log t init sd upd cfg message (rest : exec b8) p b p' :
  (ok <- systems_manager_register type_value t init sd upd cfg;;
   if negb ok then KERROR message;; ret false else rest) p = Returns (b, p') ->
  (b = false /\ exists m,
     log p' = log p ++ [(LOG_LEVEL_ERROR, m); (LOG_LEVEL_ERROR, message)]) \/
  (exists p1, log p1 = log p /\ rest p1 = Returns (b, p')).
Proof.
  intros H. apply bind_Returns in H as (ok & p1 & Hreg & H).
  apply register_result in Hreg
    as [(-> & _ & m & Hlog)|(-> & _ & Hlog & _)]; simpl in H.
  - left. exec_unfold. injection H as <- <-. split; [done|]. exists m.
    simpl. by rewrite Hlog, <- app_assoc.
  - right. by exists p1.
Qed.

(** No entry of [l] but traces, exactly when [b] is true. *)
Ltac log_verdict :=
  split; [discriminate || (intros _; by repeat constructor)|];
  first [done
        |intros Hall; exfalso;
         repeat (cbn [app] in Hall; apply Forall_cons in Hall as [Hentry Hall];
                 first [discriminate Hentry|clear Hentry])].

(** Rewrites the log of the final process down to that of the first. *)
Ltac chain_log :=
  repeat match goal with
         | H : log ?q = _ |- context [log ?q] => rewrite H; clear H
         end;
  rewrite <- ?app_assoc.

Lemma register_job_system_log p b p' :
  register_job_system type_value JOB_TYPE_GENERAL JOB_TYPE_RESOURCE_LOAD
    JOB_TYPE_GPU_RESOURCE ext p = Returns (b, p') ->
  exists l, log p' = log p ++ l /\ (b = true <-> Forall is_trace l).
Proof.
  unfold register_job_system, i32_sub. intros H.
  apply bind_Returns in H as (m & p1 & [= <- <-] & H).
  apply bind_Returns in H as (n & p1 & [= <- <-] & H).
  apply bind_Returns in H as (tc & p1 & Hsub & H).
  destruct (_ || _)%bool; [discriminate|]. injection Hsub as <- <-.
  destruct (_ <? 1)%Z.
  - exec_unfold. injection H as <- <-. eexists. split; [reflexivity|].
    log_verdict.
  - apply bind_Returns in H as ([] & p1 & [= <-] & H).
    apply bind_Returns in H as (tc & p2 & Hcap & H).
    destruct (15 <? _)%Z; exec_unfold; injection Hcap as <- <-;
      apply guarded_register_log in H
        as [(-> & m & H)|(p3 & Hlog & [= <- <-])];
      simpl in *; eexists; (split; [chain_log; reflexivity|]); log_verdict.
Qed.

Lemma create_render_views_log views : forall p b p',
  create_render_views ext views p = Returns (b, p') ->
  exists l, log p' = log p ++ l /\ (b = true <-> Forall is_trace l).
Proof.
  induction views as [|view views IH]; intros p b p' H; simpl in H.
  - injection H as <- <-. exists []. by rewrite app_nil_r.
  - apply bind_Returns in H as (ok & p1 & Hcall & H).
    apply bind_Returns in H as ([] & p2 & Hnote & H).
    assert (Hp2 : log p2 = log p).
    { exec_unfold. destruct (render_view_system_create _ _ _).
      injection Hcall as <- <-. by injection Hnote as <-. }
    destruct ok; simpl in H.
    + destruct (IH _ _ _ H) as (l & Hl & Hverdict). exists l.
      by rewrite Hl, Hp2.
    + exec_unfold. injection H as <- <-. eexists.
      split; [simpl; by rewrite Hp2|]. log_verdict.
Qed.

(** X10: either boot pass returns true exactly when it has logged nothing
    but traces: a pass that returns false has logged an error or a fatal
    error, and a pass that logs one returns false. *)
Theorem boot_pass_verdict_in_log app_config p b p' :
  (register_known_systems_pre_boot type_value JOB_TYPE_GENERAL
     JOB_TYPE_RESOURCE_LOAD JOB_TYPE_GPU_RESOURCE ext app_config p =
     Returns (b, p') \/
   register_known_systems_post_boot type_value ext app_config p =
     Returns (b, p')) ->
  exists l, log p' = log p ++ l /\ (b = true <-> Forall is_trace l).
Proof.
  intros [H|H].
  - unfold register_known_systems_pre_boot in H. cbv zeta in H.
    do 10 (apply guarded_register_log in H as [(-> & ? & H)|(? & ? & H)];
           [eexists; split; [chain_log; reflexivity|log_verdict]|]).
    apply register_job_system_log in H as (l & H & Hverdict).
    exists l. split; [by chain_log|done].
  - unfold register_known_systems_post_boot in H. cbv zeta in H.
    do 4 (apply guarded_register_log in H as [(-> & ? & H)|(? & ? & H)];
          [eexists; split; [chain_log; reflexivity|log_verdict]|]).
    apply bind_Returns in H as (ok & p1 & Hloop & H).
    apply create_render_views_log in Hloop as (l & Hl & Hverdict).
    destruct ok; cbn [negb] in H.
    + assert (Htraces : Forall is_trace l) by (by apply Hverdict).
      clear Hverdict.
      do 2 (apply guarded_register_log in H as [(-> & ? & H)|(? & ? & H)];
            [eexists (l ++ _); split; [chain_log; reflexivity|];
             split; [discriminate|]; intros Hall; exfalso;
             apply Forall_app in Hall as [_ Hall];
             repeat (apply Forall_cons in Hall as [Hentry Hall];
                     first [discriminate Hentry|clear Hentry])|]).
      injection H as <- <-. exists l. split; [by chain_log|done].
    + injection H as <- <-. exists l. split; [by chain_log|done].
Qed.

(** ** Failed boots *)

Lemma guarded_register_failed_or_next t init sd upd cfg message (rest : exec b8)
    p b p' :
  (ok <- systems_manager_register type_value t init sd upd cfg;;
   if negb ok then KERROR message;; ret false else rest) p = Returns (b, p') ->
  (b = false /\ systems (registry p') = systems (registry p)) \/
  (exists p1,
     (forall j, j ≠ t -> systems (registry p1) !! j = systems (registry p) !! j) /\
     rest p1 = Returns (b, p')).
Proof.
  intros H. apply bind_Returns in H as (ok & p1 & Hreg & H).
  pose proof (fun j => register_other_slots _ _ _ _ _ _ _ _ j Hreg) as Hframe.
  apply register_result in Hreg as [(-> & Hsys & _)|(-> & _)]; simpl in H.
  - left. exec_unfold. by injection H as <- <-.
  - right. by exists p1.
Qed.

Lemma register_job_system_failed p b p' :
  register_job_system type_value JOB_TYPE_GENERAL JOB_TYPE_RESOURCE_LOAD
    JOB_TYPE_GPU_RESOURCE ext p = Returns (b, p') ->
  (b = false /\ systems (registry p') = systems (registry p)) \/
  (b = true /\ (1 <= platform_get_processor_count ext (outside p) - 1)%Z).
Proof.
  unfold register_job_system, i32_sub. intros H.
  apply bind_Returns in H as (m & p1 & [= <- <-] & H).
  apply bind_Returns in H as (n & p1 & [= <- <-] & H).
  apply bind_Returns in H as (tc & p1 & Hsub & H).
  destruct (_ || _)%bool; [discriminate|]. injection Hsub as <- <-.
  destruct (_ <? 1)%Z eqn:Hlow.
  - left. exec_unfold. by injection H as <- <-.
  - apply bind_Returns in H as ([] & p1 & [= <-] & H).
    apply bind_Returns in H as (tc & p2 & Hcap & H).
    assert (Hp2 : registry p2 = registry p).
    { destruct (15 <? _)%Z; exec_unfold; by injection Hcap as <- <-. }
    apply guarded_register_failed_or_next in H
      as [[-> H]|(p3 & _ & [= <- <-])].
    + left. by rewrite H, Hp2.
    + right. split; [done|]. apply Z.ltb_ge in Hlow. exact Hlow.
Qed.

(** Rewrites slot [j] of the table reached back to the table of the first
    process, through the frames of the registrations in between. *)
Ltac frame_back j Hinj :=
  repeat first
    [ match goal with
      | Hf : forall i, _ -> systems (registry ?q) !! i = _
        |- context [systems (registry ?q)] =>
          rewrite (Hf j) by (intros Heq; by apply Hinj in Heq); clear Hf
      end
    | match goal with
      | Hr : registry ?q = _ |- context [registry ?q] => rewrite Hr; clear Hr
      end ];
  reflexivity.

(** X11: a boot pass that returns false has not written the slot of its last
    registration: the job slot for the pre-boot pass, the geometry slot for
    the post-boot pass, are then what they were before the pass. *)
Theorem failed_boot_leaves_last_slot app_config p p' :
  Inj (=) (=) type_value ->
  (register_known_systems_pre_boot type_value JOB_TYPE_GENERAL
     JOB_TYPE_RESOURCE_LOAD JOB_TYPE_GPU_RESOURCE ext app_config p =
     Returns (false, p') ->
   systems (registry p') !! type_value K_SYSTEM_TYPE_JOB =
   systems (registry p) !! type_value K_SYSTEM_TYPE_JOB) /\
  (register_known_systems_post_boot type_value ext app_config p =
     Returns (false, p') ->
   systems (registry p') !! type_value K_SYSTEM_TYPE_GEOMETRY =
   systems (registry p) !! type_value K_SYSTEM_TYPE_GEOMETRY).
Proof.
  intros Hinj. split; intros H.
  - unfold register_known_systems_pre_boot in H. cbv zeta in H.
    do 10 (apply guarded_register_failed_or_next in H
             as [[_ H]|(? & ? & H)];
           [rewrite H; frame_back (type_value K_SYSTEM_TYPE_JOB) Hinj|]).
    apply register_job_system_failed in H as [[_ H]|[? _]]; [|done].
    rewrite H. frame_back (type_value K_SYSTEM_TYPE_JOB) Hinj.
  - unfold register_known_systems_post_boot in H. cbv zeta in H.
    do 4 (apply guarded_register_failed_or_next in H
            as [[_ H]|(? & ? & H)];
          [rewrite H; frame_back (type_value K_SYSTEM_TYPE_GEOMETRY) Hinj|]).
    apply bind_Returns in H as (ok & p1 & Hloop & H).
    apply create_render_views_registry in Hloop.
    destruct ok; cbn [negb] in H.
    + apply guarded_register_failed_or_next in H
        as [[_ H]|(? & ? & H)];
        [rewrite H; frame_back (type_value K_SYSTEM_TYPE_GEOMETRY) Hinj|].
      apply guarded_register_failed_or_next in H
        as [[_ H]|(? & _ & H)]; [|discriminate].
      rewrite H. frame_back (type_value K_SYSTEM_TYPE_GEOMETRY) Hinj.
    + injection H as <-. frame_back (type_value K_SYSTEM_TYPE_GEOMETRY) Hinj.
Qed.

(** X12: on a platform that never reports more than one logical processor,
    the pre-boot pass does not return true. *)
Theorem pre_boot_needs_two_processors app_config p b p' :
  (forall w, (platform_get_processor_count ext w <= 1)%Z) ->
  register_known_systems_pre_boot type_value JOB_TYPE_GENERAL
    JOB_TYPE_RESOURCE_LOAD JOB_TYPE_GPU_RESOURCE ext app_config p =
    Returns (b, p') ->
  b = false.
Proof.
  intros Hcount. unfold register_known_systems_pre_boot. cbv zeta. intros H.
  do 10 (apply guarded_register_failed_or_next in H
           as [[-> _]|(? & _ & H)]; [done|]).
  apply register_job_system_failed in H as [[-> _]|[_ Hmany]]; [done|].
  match type of Hmany with
  | context [outside ?q] => specialize (Hcount (outside q))
  end. lia.
Qed.

End Properties.

(** The sample enumerators are distinct. *)
Lemma sample_type_value_inj : Inj (=) (=) sample_type_value.
Proof. intros [] [] H; (reflexivity || discriminate H). Qed.

(** ** Runs *)

Example sample_pre_boot_history :
  history sample_pre_booted =
  (fun i => ev_register i true) <$> seq 0 11.
Proof. vm_compute. reflexivity. Qed.

Example sample_post_boot_history :
  drop 11 (history sample_booted) =
  [ ev_register 11 true; ev_register 12 true; ev_register 13 true;
    ev_register 14 true; ev_create_view "world"%string true;
    ev_create_view "ui"%string true; ev_register 15 true; ev_register 16 true ].
Proof. vm_compute. reflexivity. Qed.

Example sample_arena_after_boot :
  allocated (systems_allocator (registry sample_booted)) = (16 * 64)%Z.
Proof. vm_compute. reflexivity. Qed.

Example sample_one_processor :
  exists p',
    register_known_systems_pre_boot sample_type_value
      SAMPLE_JOB_TYPE_GENERAL SAMPLE_JOB_TYPE_RESOURCE_LOAD
      SAMPLE_JOB_TYPE_GPU_RESOURCE sample_ext sample_app_config (sample_start 1)
    = Returns (false, p') /\
    history p' = (fun i => ev_register i true) <$> seq 0 10 /\
    (fst <$> last (log p')) = Some LOG_LEVEL_FATAL.
Proof. eexists. split; [vm_compute; reflexivity|]. split; vm_compute; reflexivity. Qed.

Example sample_masks_multithreaded :
  job_thread_types 2 4 8 15 true = 8%Z :: 4%Z :: replicate 13 2%Z.
Proof. reflexivity. Qed.

Example sample_masks_single_threaded :
  job_thread_types 2 4 8 15 false = 14%Z :: replicate 14 2%Z.
Proof. reflexivity. Qed.

(** The branch itself is as the table has it: given the thread count instead
    of the constant, it would fill the masks of the table. *)
Example sample_masks_of_one_thread :
  job_thread_types 2 4 8 1 true = 14%Z :: replicate 14 2%Z.
Proof. reflexivity. Qed.

Example sample_masks_of_two_threads :
  job_thread_types 2 4 8 2 true = 10%Z :: 6%Z :: replicate 13 2%Z.
Proof. reflexivity. Qed.

Example sample_update_history :
  history (after (systems_manager_update SAMPLE_MAX_COUNT 16) sample_updating) =
  history sample_updating ++
  [ ev_update 3 (Value 4096%Z) 16 false; ev_update 20 (Value 4104%Z) 16 true ].
Proof. vm_compute. reflexivity. Qed.

Example sample_shutdown_history :
  history (after (systems_manager_shutdown sample_type_value) sample_booted) =
  history sample_booted ++
  [ ev_shutdown 13 (Value 4864%Z); ev_shutdown 12 (Value 4800%Z);
    ev_shutdown 14 (Value 4928%Z); ev_shutdown 16 (Value 5056%Z);
    ev_shutdown 15 (Value 4992%Z); ev_shutdown 11 (Value 4736%Z);
    ev_shutdown 10 (Value 4672%Z); ev_shutdown 8 (Value 4544%Z);
    ev_shutdown 9 (Value 4608%Z); ev_shutdown 7 (Value 4480%Z);
    ev_shutdown 6 (Value 4416%Z); ev_shutdown 5 (Value 4352%Z);
    ev_shutdown 4 (Value 4288%Z); ev_shutdown 3 (Value 4224%Z);
    ev_shutdown 2 (Value 4160%Z); ev_shutdown 1 (Value 4096%Z);
    ev_shutdown 0 Indeterminate ].
Proof. vm_compute. reflexivity. Qed.

(** ** The properties on the sample engine *)

(** C8 on the sample engine: type 5 without an initializer is refused, the
    memory type is accepted. *)
Lemma register_null_initialize_witness :
  5 ≠ sample_type_value K_SYSTEM_TYPE_MEMORY /\
  (exists p',
     systems_manager_register sample_type_value 5 None (Some quiet_shutdown)
       None config_null (sample_start 8) = Returns (false, p') /\
     registry p' = registry (sample_start 8)) /\
  0 < length (systems (registry (sample_start 8))) /\
  (exists p',
     systems_manager_register sample_type_value 0 None (Some quiet_shutdown)
       None config_null (sample_start 8) = Returns (true, p')).
Proof.
  split; [simpl; lia|]. split.
  - apply (proj1 (proj2 (register_null_initialize sample_type_value 5
             (Some quiet_shutdown) None config_null (sample_start 8)))).
    simpl; lia.
  - split; [simpl; lia|].
    apply (proj2 (proj2 (register_null_initialize sample_type_value 0
             (Some quiet_shutdown) None config_null (sample_start 8)))).
    + reflexivity.
    + simpl; lia.
Defined.

(** C6 on the sample engine: an initializer that fails at its sizing call,
    and one that fails once it is given its 16 bytes. *)
Lemma register_initialize_failure_witness :
  (exists p',
     sample_register 1 refusing_initialize None (sample_start 8) = Returns (false, p') /\
     systems (registry p') = systems (registry (sample_start 8)) /\
     systems_allocator (registry p') = systems_allocator (registry (sample_start 8))) /\
  (exists p',
     sample_register 1 half_initialize None (sample_start 8) = Returns (false, p') /\
     systems (registry p') = systems (registry (sample_start 8)) /\
     allocated (systems_allocator (registry p')) =
       (allocated (systems_allocator (registry (sample_start 8))) + 16)%Z).
Proof.
  split.
  - apply (proj1 (register_initialize_failure sample_type_value 1
             refusing_initialize (Some quiet_shutdown) None config_null
             (sample_start 8)) Indeterminate 8%Z).
    reflexivity.
  - apply (proj2 (register_initialize_failure sample_type_value 1
             half_initialize (Some quiet_shutdown) None config_null
             (sample_start 8)) 16%Z 8%Z 4096%Z
             {| total_size := 64 * 1024 * 1024; allocated := 16; memory := 4096 |}%Z
             (Value 16%Z) 8%Z); reflexivity.
Defined.

(** C4 on the sample engine, with the initializer that reports 16 bytes and
    then 32. *)
Lemma register_sizing_protocol_witness :
  exists n w1 block a size w2,
    growing_initialize Indeterminate 0%Z config_null 8%Z = (true, Value n, w1) /\
    linear_allocator_allocate (systems_allocator (registry (sample_start 8))) n =
      Some (block, a) /\
    allocated a = (allocated (systems_allocator (registry (sample_start 8))) + n)%Z /\
    systems_allocator
      (registry (after (sample_register 1 growing_initialize None) (sample_start 8))) = a /\
    growing_initialize (Value n) block config_null w1 = (true, size, w2) /\
    systems (registry (after (sample_register 1 growing_initialize None) (sample_start 8))) !! 1 =
      Some (registered_system size (Value block) (Some growing_initialize)
              (Some quiet_shutdown) None) /\
    (size = Value n ->
     state_size <$>
       systems (registry (after (sample_register 1 growing_initialize None) (sample_start 8))) !! 1 =
     Some (Value n)).
Proof.
  apply (register_sizing_protocol sample_type_value 1 growing_initialize
           (Some quiet_shutdown) None config_null (sample_start 8)
           (after (sample_register 1 growing_initialize None) (sample_start 8))).
  vm_compute. reflexivity.
Defined.

(** C2 on the sample engine: the console registered a second time. *)
Lemma register_again_overwrites_witness :
  systems (registry sample_once) !! 1 =
    Some (registered_system (Value 64%Z) (Value 4096%Z)
            (Some (sized_initialize 64)) (Some quiet_shutdown) None) /\
  exists p',
    sample_register 1 (sized_initialize 64) None sample_once = Returns (true, p') /\
    systems (registry p') !! 1 =
      Some (registered_system (Value 64%Z) (Value 4160%Z)
              (Some (sized_initialize 64)) (Some quiet_shutdown) None) /\
    forall j, j ≠ 1 -> systems (registry p') !! j = systems (registry sample_once) !! j.
Proof.
  split; [reflexivity|].
  apply (register_again_overwrites sample_type_value 1 (sized_initialize 64)
           (Some quiet_shutdown) None config_null sample_once
           (registered_system (Value 64%Z) (Value 4096%Z)
              (Some (sized_initialize 64)) (Some quiet_shutdown) None)
           64%Z 8%Z 4160%Z
           {| total_size := 64 * 1024 * 1024; allocated := 128; memory := 4096 |}%Z
           (Value 64%Z) 8%Z); reflexivity.
Defined.


(** C9 on the sample engine. *)
Lemma update_returns_true_witness :
  SAMPLE_MAX_COUNT <= length (systems (registry sample_updating)) /\
  exists p',
    systems_manager_update SAMPLE_MAX_COUNT 16 sample_updating = Returns (true, p').
Proof.
  split; [vm_compute; lia|].
  apply (proj2 (update_returns_true SAMPLE_MAX_COUNT 16 sample_updating)).
  vm_compute; lia.
Defined.

(** After both passes every known slot holds a shutdown function. *)
Lemma sample_booted_slots (t : k_system_type) :
  exists s f, systems (registry sample_booted) !! sample_type_value t = Some s /\
              shutdown s = Some f.
Proof. destruct t; do 2 eexists; split; vm_compute; reflexivity. Qed.

(** C3 on the sample engine, booted. *)
Lemma shutdown_in_fixed_order_witness :
  shutdown_pass_calls sample_type_value 17 sample_booted.
Proof.
  apply (shutdown_in_fixed_order sample_type_value sample_booted
           sample_type_value_inj sample_booted_slots).
Defined.


(** C1 on the sample engine with two processors; bit 1 is the general work
    type. *)
Lemma job_setup_two_processors_witness :
  exists job_sys_config,
    register_job_system sample_type_value SAMPLE_JOB_TYPE_GENERAL
      SAMPLE_JOB_TYPE_RESOURCE_LOAD SAMPLE_JOB_TYPE_GPU_RESOURCE sample_ext
      (sample_start 2) =
    (bind (KTRACE "Available threads: %i")
       (fun _ => register_job_system_with sample_type_value sample_ext job_sys_config))
      (sample_start 2) /\
    max_job_thread_count job_sys_config = 1%Z /\
    type_masks job_sys_config !! 0 = Some SAMPLE_JOB_TYPE_GPU_RESOURCE /\
    type_masks job_sys_config !! 0 ≠
      Some (Z.lor SAMPLE_JOB_TYPE_GENERAL
              (Z.lor SAMPLE_JOB_TYPE_GPU_RESOURCE SAMPLE_JOB_TYPE_RESOURCE_LOAD)).
Proof.
  apply (job_setup_two_processors sample_type_value SAMPLE_JOB_TYPE_GENERAL
           SAMPLE_JOB_TYPE_RESOURCE_LOAD SAMPLE_JOB_TYPE_GPU_RESOURCE sample_ext
           (sample_start 2) 1%Z); reflexivity.
Defined.


(** ** Where the specification and the code part *)

(** C2 as stated fails: the console is registered once, which populates its
    slot, and the same registration made again is not rejected. *)
Lemma register_twice_not_rejected :
  sample_register 1 (sized_initialize 64) None (sample_start 8) =
    Returns (true, sample_once) /\
  ~ (exists p',
       sample_register 1 (sized_initialize 64) None sample_once = Returns (false, p') /\
       systems (registry p') = systems (registry sample_once)).
Proof.
  split; [vm_compute; reflexivity|].
  intros (p' & H & _). vm_compute in H. discriminate H.
Qed.

(** C3 as stated fails: the pass over the booted engine does not call
    sixteen slots. *)
Lemma shutdown_not_sixteen_slots :
  ~ shutdown_pass_calls sample_type_value 16 sample_booted.
Proof. intros (p' & _ & _ & _ & Hlen & _). discriminate Hlen. Qed.

(** C4 as stated fails: the registration succeeds, the sizing call reports 16
    bytes, 16 bytes are taken from the arena, and the slot stores 32 as its
    [state_size], written by the second call. *)
Lemma register_stored_size_differs :
  exists p',
    sample_register 1 growing_initialize None (sample_start 8) = Returns (true, p') /\
    growing_initialize Indeterminate 0%Z config_null (outside (sample_start 8)) =
      (true, Value 16%Z, 8%Z) /\
    allocated (systems_allocator (registry p')) = 16%Z /\
    state_size <$> systems (registry p') !! 1 = Some (Value 32%Z) /\
    state_size <$> systems (registry p') !! 1 ≠ Some (Value 16%Z).
Proof.
  eexists. split; [vm_compute; reflexivity|]. repeat split; discriminate.
Qed.

(** ** The further properties on the sample engine *)

(** At its start no slot of the sample engine has an updater. *)
Lemma sample_start_no_updater processors :
  no_updater_below SAMPLE_MAX_COUNT (systems (registry (sample_start processors))).
Proof.
  intros i Hi. exists zeroed_slot. split; [|reflexivity].
  by apply lookup_replicate_2.
Qed.

Lemma register_postcondition_witness :
  length (systems (registry sample_once)) =
    length (systems (registry (sample_start 8))) /\
  (forall j, j ≠ 1 ->
     systems (registry sample_once) !! j = systems (registry (sample_start 8)) !! j) /\
  (true = false ->
     systems (registry sample_once) = systems (registry (sample_start 8))) /\
  (true = true -> exists size block,
     systems (registry sample_once) !! 1 =
     Some (registered_system size block (Some (sized_initialize 64))
             (Some quiet_shutdown) None)).
Proof.
  apply (register_postcondition sample_type_value 1 (Some (sized_initialize 64))
           (Some quiet_shutdown) None config_null (sample_start 8) true sample_once).
  vm_compute. reflexivity.
Defined.

Lemma boot_passes_keep_other_slots_witness :
  length (systems (registry sample_pre_booted)) =
    length (systems (registry (sample_start 8))) /\
  forall j : nat, (forall t, j ≠ sample_type_value t) ->
    systems (registry sample_pre_booted) !! j =
    systems (registry (sample_start 8)) !! j.
Proof.
  apply (boot_passes_keep_other_slots sample_type_value SAMPLE_JOB_TYPE_GENERAL
           SAMPLE_JOB_TYPE_RESOURCE_LOAD SAMPLE_JOB_TYPE_GPU_RESOURCE sample_ext
           sample_app_config (sample_start 8) true sample_pre_booted).
  left. vm_compute. reflexivity.
Defined.

Lemma boot_populates_known_slots_witness :
  exists s,
    systems (registry sample_booted) !! sample_type_value K_SYSTEM_TYPE_JOB = Some s /\
    initialize s = known_initialize sample_ext K_SYSTEM_TYPE_JOB /\
    shutdown s = Some (known_shutdown sample_ext K_SYSTEM_TYPE_JOB) /\
    update s = known_update sample_ext K_SYSTEM_TYPE_JOB.
Proof.
  apply (boot_populates_known_slots sample_type_value SAMPLE_JOB_TYPE_GENERAL
           SAMPLE_JOB_TYPE_RESOURCE_LOAD SAMPLE_JOB_TYPE_GPU_RESOURCE sample_ext
           sample_app_config (sample_start 8) sample_pre_booted sample_pre_booted
           sample_booted K_SYSTEM_TYPE_JOB sample_type_value_inj).
  - vm_compute. reflexivity.
  - reflexivity.
  - vm_compute. reflexivity.
Defined.

Lemma shutdown_after_boot_witness :
  exists q3,
    systems_manager_shutdown sample_type_value sample_booted = Returns (tt, q3) /\
    registry q3 = registry sample_booted /\
    outside q3 =
      foldl (fun w t => known_shutdown sample_ext t
                          (slot_state sample_booted (sample_type_value t)) w)
        (outside sample_booted) shutdown_order /\
    history q3 = history sample_booted ++
      ((fun t : k_system_type =>
          ev_shutdown (sample_type_value t)
            (slot_state sample_booted (sample_type_value t))) <$> shutdown_order).
Proof.
  apply (shutdown_after_boot sample_type_value SAMPLE_JOB_TYPE_GENERAL
           SAMPLE_JOB_TYPE_RESOURCE_LOAD SAMPLE_JOB_TYPE_GPU_RESOURCE sample_ext
           sample_app_config (sample_start 8) sample_pre_booted sample_pre_booted
           sample_booted sample_booted sample_type_value_inj).
  - vm_compute. reflexivity.
  - reflexivity.
  - vm_compute. reflexivity.
  - reflexivity.
Defined.


Lemma update_pass_idle_witness :
  systems_manager_update SAMPLE_MAX_COUNT 16 (sample_start 8) =
  Returns (true, sample_start 8).
Proof.
  apply (update_pass_idle SAMPLE_MAX_COUNT 16 (sample_start 8)
           (sample_start_no_updater 8)).
Defined.

Lemma update_after_boot_witness :
  exists q3 ok,
    systems_manager_update SAMPLE_MAX_COUNT 16%Z sample_booted = Returns (true, q3) /\
    job_system_update sample_ext
      (slot_state sample_booted (sample_type_value K_SYSTEM_TYPE_JOB)) 16%Z
      (outside sample_booted) = (ok, outside q3) /\
    history q3 = history sample_booted ++
      [ev_update (sample_type_value K_SYSTEM_TYPE_JOB)
         (slot_state sample_booted (sample_type_value K_SYSTEM_TYPE_JOB)) 16%Z ok] /\
    log q3 = log sample_booted ++ (if ok then [] else [update_error]) /\
    registry q3 = registry sample_booted.
Proof.
  apply (update_after_boot sample_type_value SAMPLE_MAX_COUNT
           SAMPLE_JOB_TYPE_GENERAL SAMPLE_JOB_TYPE_RESOURCE_LOAD
           SAMPLE_JOB_TYPE_GPU_RESOURCE sample_ext sample_app_config
           (sample_start 8) sample_pre_booted sample_pre_booted sample_booted
           sample_booted 16%Z sample_type_value_inj (sample_start_no_updater 8)).
  - vm_compute. lia.
  - vm_compute. reflexivity.
  - reflexivity.
  - vm_compute. reflexivity.
  - reflexivity.
Defined.

Lemma job_setup_thread_count_witness :
  exists job_sys_config p0,
    register_job_system sample_type_value SAMPLE_JOB_TYPE_GENERAL
      SAMPLE_JOB_TYPE_RESOURCE_LOAD SAMPLE_JOB_TYPE_GPU_RESOURCE sample_ext
      (sample_start 32) =
      register_job_system_with sample_type_value sample_ext job_sys_config p0 /\
    registry p0 = registry (sample_start 32) /\
    outside p0 = outside (sample_start 32) /\
    history p0 = history (sample_start 32) /\
    (exists traces, log p0 = log (sample_start 32) ++ traces /\
                    Forall is_trace traces) /\
    max_job_thread_count job_sys_config = Z.min (32 - 1) 15 /\
    (1 <= max_job_thread_count job_sys_config <= 15)%Z /\
    length (type_masks job_sys_config) = 15 /\
    forall i : nat, (Z.of_nat i < max_job_thread_count job_sys_config)%Z ->
      is_Some (type_masks job_sys_config !! i).
Proof.
  apply (job_setup_thread_count sample_type_value SAMPLE_JOB_TYPE_GENERAL
           SAMPLE_JOB_TYPE_RESOURCE_LOAD SAMPLE_JOB_TYPE_GPU_RESOURCE sample_ext
           (sample_start 32)).
  simpl. lia.
Defined.

Lemma job_masks_cover_work_types_witness :
  exists (i : nat) mask,
    (Z.of_nat i < 4)%Z /\
    job_thread_types SAMPLE_JOB_TYPE_GENERAL SAMPLE_JOB_TYPE_RESOURCE_LOAD
      SAMPLE_JOB_TYPE_GPU_RESOURCE 15 true !! i = Some mask /\
    mask_includes mask SAMPLE_JOB_TYPE_GENERAL.
Proof.
  apply (job_masks_cover_work_types SAMPLE_JOB_TYPE_GENERAL
           SAMPLE_JOB_TYPE_RESOURCE_LOAD SAMPLE_JOB_TYPE_GPU_RESOURCE true 4
           SAMPLE_JOB_TYPE_GENERAL).
  - lia.
  - right. lia.
  - apply (bool_decide_unpack _). vm_compute. exact I.
Defined.

Lemma boot_pass_verdict_in_log_witness :
  exists l, log sample_failed_boot = log (sample_start 1) ++ l /\
            (false = true <-> Forall is_trace l).
Proof.
  apply (boot_pass_verdict_in_log sample_type_value SAMPLE_JOB_TYPE_GENERAL
           SAMPLE_JOB_TYPE_RESOURCE_LOAD SAMPLE_JOB_TYPE_GPU_RESOURCE sample_ext
           sample_app_config (sample_start 1) false sample_failed_boot).
  left. vm_compute. reflexivity.
Defined.

Lemma failed_boot_leaves_last_slot_witness :
  systems (registry sample_failed_boot) !! sample_type_value K_SYSTEM_TYPE_JOB =
  systems (registry (sample_start 1)) !! sample_type_value K_SYSTEM_TYPE_JOB.
Proof.
  apply (proj1 (failed_boot_leaves_last_slot sample_type_value
                  SAMPLE_JOB_TYPE_GENERAL SAMPLE_JOB_TYPE_RESOURCE_LOAD
                  SAMPLE_JOB_TYPE_GPU_RESOURCE sample_ext sample_app_config
                  (sample_start 1) sample_failed_boot sample_type_value_inj)).
  vm_compute. reflexivity.
Defined.

Lemma pre_boot_needs_two_processors_witness :
  (forall w : Z, (platform_get_processor_count single_core_ext w <= 1)%Z) /\
  register_known_systems_pre_boot sample_type_value SAMPLE_JOB_TYPE_GENERAL
    SAMPLE_JOB_TYPE_RESOURCE_LOAD SAMPLE_JOB_TYPE_GPU_RESOURCE single_core_ext
    sample_app_config (sample_start 8) = Returns (false, single_core_boot) /\
  forall b p',
    register_known_systems_pre_boot sample_type_value SAMPLE_JOB_TYPE_GENERAL
      SAMPLE_JOB_TYPE_RESOURCE_LOAD SAMPLE_JOB_TYPE_GPU_RESOURCE single_core_ext
      sample_app_config (sample_start 8) = Returns (b, p') ->
    b = false.
Proof.
  split; [intros w; simpl; lia|]. split; [vm_compute; reflexivity|].
  intros b p'.
  apply (pre_boot_needs_two_processors sample_type_value SAMPLE_JOB_TYPE_GENERAL
           SAMPLE_JOB_TYPE_RESOURCE_LOAD SAMPLE_JOB_TYPE_GPU_RESOURCE
           single_core_ext sample_app_config (sample_start 8) b p').
  intros w. simpl. lia.
Defined.
